(** * VV-PDFRAG: the embedding cache and the retrieval engine

    A shallow embedding of [models/indexer.py] and [models/retriever.py]:
    the disk-backed embedding cache ([DiskCacheIndexer]), the linear-scan
    cosine search ([retrieve_from_disk], [compute_similarity]), the result
    materializer ([process_results]), the retrieval facade
    ([retrieve_documents]) and the indexing pipeline ([index_documents]).

    Python exceptions are values of [exn] carried by [result]; code with
    side effects (files written, calls to the encoder, log records) runs in
    the monad [M] over an explicit [world].  Embedding components are IEEE
    binary64 numbers, taken from [SpecFloat]. *)

From Stdlib Require Import ZArith List Bool Ascii String DecimalString Lia.
From Stdlib Require Import DecimalNat.
From Stdlib Require Import Sorting.Sorted Structures.OrderedTypeEx.
From Stdlib Require Import Floats.SpecFloat.
From stdpp Require Import gmap strings list sorting.

Local Open Scope string_scope.
Local Open Scope Z_scope.

(** ** Exceptions and results *)

(** The subclasses of Python's [Exception] that the two modules can meet.
    [OtherError] stands for any further subclass of [Exception]. *)
Inductive exn : Type :=
  | AttributeError
  | TypeError
  | ValueError
  | UnboundLocalError
  | UnpicklingError
  | UnidentifiedImageError
  | OSError
  | OtherError (name : string).

Definition is_AttributeError (e : exn) : bool :=
  match e with AttributeError => true | _ => false end.

Inductive result (A : Type) : Type :=
  | Ok (a : A)
  | Raise (e : exn).
Arguments Ok {A} a.
Arguments Raise {A} e.

Definition is_ok {A} (r : result A) : bool :=
  match r with Ok _ => true | Raise _ => false end.

Definition rbind {A B} (r : result A) (f : A -> result B) : result B :=
  match r with
  | Ok a => f a
  | Raise e => Raise e
  end.

#[global] Instance result_ret : MRet result := fun A a => Ok a.
#[global] Instance result_bind : MBind result := fun A B f r => rbind r f.
#[global] Instance result_fmap : FMap result := fun A B f r =>
  match r with
  | Ok a => Ok (f a)
  | Raise e => Raise e
  end.

(** ** Python strings *)

Module PyStr.

(** [s.endswith(suffix)] *)
Definition endswith (s suffix : string) : bool :=
  let n := String.length s in
  let m := String.length suffix in
  if (m <=? n)%nat
  then String.eqb (String.substring (n - m) m s) suffix
  else false.

(** [s.replace(old, new)] for a non-empty [old]: every non-overlapping
    occurrence, scanning from the left.  [skip] counts the characters of
    an occurrence just replaced that are still to be dropped. *)
Fixpoint replace_from (old new s : string) (skip : nat) : string :=
  match s with
  | EmptyString => EmptyString
  | String c s' =>
      match skip with
      | S n => replace_from old new s' n
      | O =>
          if String.prefix old s
          then new ++ replace_from old new s' (String.length old - 1)
          else String c (replace_from old new s' 0)
      end
  end.

Definition replace (s old new : string) : string :=
  replace_from old new s 0.

(** [old in s] *)
Fixpoint contains (old s : string) : bool :=
  match s with
  | EmptyString => String.prefix old s
  | String _ s' => String.prefix old s || contains old s'
  end.

(** [str(i)] for a non-negative index, as in [f"{file}_{i}"]. *)
Definition of_nat (i : nat) : string :=
  NilEmpty.string_of_uint (Nat.to_uint i).

(** [os.path.join(a, b)] on POSIX. *)
Definition path_join (a b : string) : string :=
  if String.prefix "/" b then b
  else if String.eqb a "" then b
  else if endswith a "/" then a ++ b
  else a ++ "/" ++ b.

(** The order of [str] comparison: code points, here bytes. *)
Definition lt (a b : string) : Prop := String.ltb a b = true.
Definition le (a b : string) : Prop := String.leb a b = true.

End PyStr.

#[global] Instance str_le_dec : RelDecision PyStr.le :=
  fun a b => decide (String.leb a b = true).

(** ** Numbers: IEEE binary64 *)

Module F64.

Definition prec : Z := 53.
Definition emax : Z := 1024.

Definition t : Type := spec_float.

Definition zero : t := S754_zero false.
Definition nan : t := S754_nan.
Definition add : t -> t -> t := SFadd prec emax.
Definition mul : t -> t -> t := SFmul prec emax.
Definition div : t -> t -> t := SFdiv prec emax.
Definition sqrt : t -> t := SFsqrt prec emax.
Definition ltb : t -> t -> bool := SFltb.
Definition eqb : t -> t -> bool := SFeqb.

(** The float nearest to an integer, and to a ratio of two integers. *)
Definition of_Z (z : Z) : t := binary_normalize prec emax z 0 false.
Definition of_ratio (n d : Z) : t := div (of_Z n) (of_Z d).

Definition is_nan (x : t) : bool :=
  match x with S754_nan => true | _ => false end.

Definition is_zero (x : t) : bool :=
  match x with S754_zero _ => true | _ => false end.

End F64.

(** ** Python values held by the cache *)

Definition bytes : Type := list Byte.byte.
Definition embedding : Type := list F64.t.

(** What the indexer pickles: the raw bytes of a page image, a
    one-dimensional float array, or any other object. *)
Inductive pyval : Type :=
  | PyBytes (b : bytes)
  | PyArray (v : embedding)
  | PyObject (repr : string).

(** [pickle.dumps] / [pickle.loads].  The wire format is left to the
    instance; the only law is the round trip of the standard library:
    loading what was dumped gives the value back.  [pickle_loads] raises on
    data that is not a pickle stream. *)
Class Pickle (blob : Type) : Type := {
  pickle_dumps : pyval -> blob;
  pickle_loads : blob -> result pyval;
  pickle_loads_dumps : forall v, pickle_loads (pickle_dumps v) = Ok v
}.

(** [pickle.loads(cache.get(key))]: [Cache.get] returns [None] for an absent
    key, and [pickle.loads(None)] raises [TypeError]. *)
Definition loads_opt {blob} `{Pickle blob} (o : option blob) : result pyval :=
  match o with
  | Some b => pickle_loads b
  | None => Raise TypeError
  end.

(** ** The world outside the two modules *)

(** Calls and writes that the claims count, in the order they happen.
    Only error and warning records of the logger are kept; info and debug
    records change nothing and are left out. *)
Inductive event : Type :=
  | EvSearch (query : string) (k : Z)
  | EvSave (path : string)
  | EvLogError (site : string) (e : exn)
  | EvLogWarning (site : string).

(** [files]: the paths that exist under the static root. *)
Record world : Type := World {
  files : gset string;
  trace : list event
}.

Definition M (A : Type) : Type := world -> result A * world.

#[global] Instance M_ret : MRet M := fun A a w => (Ok a, w).
#[global] Instance M_bind : MBind M := fun A B f m w =>
  match m w with
  | (Ok a, w') => f a w'
  | (Raise e, w') => (Raise e, w')
  end.

Definition raise {A} (e : exn) : M A := fun w => (Raise e, w).

Definition lift {A} (r : result A) : M A := fun w => (r, w).

Definition emit (ev : event) : M unit :=
  fun w => (Ok tt, World (files w) (trace w ++ [ev])).

(** [try: body except Exception as e: handler(e)].  Whatever [handler]
    raises leaves the statement: a handler is not guarded by its own
    [try]. *)
Definition try_except {A} (body : M A) (handler : exn -> M A) : M A :=
  fun w =>
    match body w with
    | (Ok a, w') => (Ok a, w')
    | (Raise e, w') => handler e w'
    end.

(** [os.path.exists(path)] *)
Definition path_exists (path : string) : M bool :=
  fun w => (Ok (bool_decide (path ∈ files w)), w).

(** [image.save(path, format='PNG')], taken to succeed. *)
Definition image_save (path : string) : M unit :=
  fun w => (Ok tt, World ({[path]} ∪ files w) (trace w ++ [EvSave path])).

(** Libraries used by the materializer: [PIL.Image.open] on a byte buffer
    (raises on bytes that are no image), [hashlib.md5(..).hexdigest()] and
    [base64.b64decode]. *)
Record Imaging : Type := {
  image_open : bytes -> result unit;
  md5_hexdigest : bytes -> string;
  b64decode : string -> result bytes
}.

Definition is_search (ev : event) : bool :=
  match ev with EvSearch _ _ => true | _ => false end.

Definition count_searches (t : list event) : nat :=
  length (List.filter is_search t).


(** ** The embedding cache and the retrieval engine *)

Section Engine.

Context {blob : Type} {pickle : Pickle blob}.

(** *** [diskcache.Cache] *)

(** A durable map from string keys to stored blobs.  [Cache.set] inserts or
    overwrites, [Cache.get] returns [None] for an absent key.  Expiry and
    the size limit of the store are left out. *)
Local Abbreviation Cache := (gmap string blob).

Definition cache_set (c : Cache) (key : string) (value : blob) : Cache :=
  <[key := value]> c.

Definition cache_get (c : Cache) (key : string) : option blob :=
  c !! key.

(** [Cache.iterkeys()] iterates the keys in database sort order (the query
    behind it is [ORDER BY key]); for string keys that is the byte order
    of [PyStr.le]. *)
Definition iterkeys (c : Cache) : list string :=
  merge_sort PyStr.le (elements (dom c)).

(** *** [class DiskCacheIndexer] (indexer.py) *)

Record DiskCacheIndexer : Type := { cache : Cache }.

Definition store_image (self : DiskCacheIndexer) (key : string) (image : pyval)
  : DiskCacheIndexer :=
  {| cache := cache_set (cache self) (key ++ "_image") (pickle_dumps image) |}.

Definition store_embedding (self : DiskCacheIndexer) (key : string)
    (embedding : pyval) : DiskCacheIndexer :=
  {| cache := cache_set (cache self) (key ++ "_embedding") (pickle_dumps embedding) |}.

Definition get_image (self : DiskCacheIndexer) (key : string) : result pyval :=
  loads_opt (cache_get (cache self) (key ++ "_image")).

Definition get_embedding (self : DiskCacheIndexer) (key : string) : result pyval :=
  loads_opt (cache_get (cache self) (key ++ "_embedding")).

(** *** Search results and the model object *)

(** The dictionaries built by [retrieve_from_disk]. *)
Record SearchResult : Type := {
  similarity : F64.t;
  image : pyval;
  key : string
}.

(** The result objects of the encoder's own search.  [base64 = None]: the
    attribute is missing or [None]. *)
Record NativeResult : Type := {
  doc_id : Z;
  page_num : Z;
  base64 : option string
}.

Inductive hit : Type :=
  | DiskHit (r : SearchResult)
  | NativeHit (r : NativeResult).

(** The [RAG] object.  An attribute that may be missing is an [option];
    methods are functions that may raise. *)
Record RAGModel : Type := {
  use_disk_storage : option bool;
  disk_cache : option DiskCacheIndexer;
  encode_query : string -> result embedding;
  search : string -> Z -> result (list NativeResult);
  index_document : string -> result (list pyval * list pyval)
}.

(** [hasattr(RAG, 'use_disk_storage') and RAG.use_disk_storage] *)
Definition disk_mode (RAG : RAGModel) : bool :=
  match use_disk_storage RAG with
  | Some b => b
  | None => false
  end.

(** Reading an attribute that is not there. *)
Definition getattr {A} (o : option A) : result A :=
  match o with
  | Some a => Ok a
  | None => Raise AttributeError
  end.

(** *** [compute_similarity] (retriever.py) *)

(** [np.dot] on two one-dimensional arrays: the lengths must agree.  The
    products are summed from the left, starting at [0.0]; a numeric kernel
    may add them in another order, which can move the last bits of a
    result. *)
Definition sum_products (a b : embedding) : F64.t :=
  fold_left (fun acc xy => F64.add acc (F64.mul (fst xy) (snd xy)))
            (combine a b) F64.zero.

Definition np_dot (a b : embedding) : result F64.t :=
  if (length a =? length b)%nat
  then Ok (sum_products a b)
  else Raise ValueError.

(** [np.linalg.norm] of a one-dimensional real array: [sqrt(dot(x, x))]. *)
Definition np_linalg_norm (x : embedding) : F64.t :=
  F64.sqrt (sum_products x x).

(** No case is singled out: the quotient is taken whatever the norms are. *)
Definition compute_similarity (query_embedding document_embedding : embedding)
  : result F64.t :=
  d ← np_dot query_embedding document_embedding;
  Ok (F64.div d (F64.mul (np_linalg_norm query_embedding)
                         (np_linalg_norm document_embedding))).

(** *** [retrieve_from_disk] (retriever.py) *)

(** The unpickled embedding has to be an array for [np.dot]. *)
Definition as_array (v : pyval) : result embedding :=
  match v with
  | PyArray a => Ok a
  | _ => Raise TypeError
  end.

(** The body of the loop for one key ending in [_embedding]. *)
Definition scan_entry (c : Cache) (query_embedding : embedding) (k : string)
  : result SearchResult :=
  stored ← loads_opt (cache_get c k);
  embedding ← as_array stored;
  sim ← compute_similarity query_embedding embedding;
  let image_key := PyStr.replace k "_embedding" "_image" in
  img ← loads_opt (cache_get c image_key);
  Ok {| similarity := sim; image := img; key := k |}.

(** The loop over the keys: the results are appended in iteration order and
    the first exception leaves the loop. *)
Fixpoint scan (c : Cache) (query_embedding : embedding) (keys : list string)
  : result (list SearchResult) :=
  match keys with
  | [] => Ok []
  | k :: keys' =>
      if PyStr.endswith k "_embedding"
      then r ← scan_entry c query_embedding k;
           rs ← scan c query_embedding keys';
           Ok (r :: rs)
      else scan c query_embedding keys'
  end.

(** [results.sort(key=lambda x: x['similarity'], reverse=True)].  The sort
    of lists is stable, also with [reverse=True], and compares keys with
    [<] only.  Insertion from the right is such a sort; on keys that [<]
    orders totally (no NaN) every stable sort gives the same list. *)
Fixpoint insert_desc (r : SearchResult) (l : list SearchResult)
  : list SearchResult :=
  match l with
  | [] => [r]
  | r' :: l' =>
      if F64.ltb (similarity r) (similarity r')
      then r' :: insert_desc r l'
      else r :: l
  end.

Definition sort_desc (l : list SearchResult) : list SearchResult :=
  fold_right insert_desc [] l.

(** The slice [l[:k]]: a negative [k] counts from the end. *)
Definition slice_to {A} (l : list A) (k : Z) : list A :=
  if k <? 0
  then take (length l - Z.to_nat (- k)) l
  else take (Z.to_nat k) l.

Definition retrieve_from_disk (RAG : RAGModel) (query : string) (k : Z)
  : result (list SearchResult) :=
  query_embedding ← encode_query RAG query;
  dc ← getattr (disk_cache RAG);
  results ← scan (cache dc) query_embedding (iterkeys (cache dc));
  Ok (slice_to (sort_desc results) k).


(** *** [process_results] (retriever.py) *)

Context (imaging : Imaging).

Definition session_images_folder (session_id : string) : string :=
  PyStr.path_join (PyStr.path_join "static" "images") session_id.

Definition image_filename (image_data : bytes) : string :=
  "retrieved_" ++ md5_hexdigest imaging image_data ++ ".png".

Definition relative_path (session_id : string) (image_data : bytes) : string :=
  PyStr.path_join (PyStr.path_join "images" session_id)
                  (image_filename image_data).

(** The three-way choice at the head of the loop body.  [Ok None] is the
    [continue] branch.  In disk mode [result['image']] subscripts the
    result, which an object of the native search does not support; in the
    other mode a dictionary has no [base64] attribute, and an empty
    [base64] string is false. *)
Definition image_data_of (RAG : RAGModel) (r : hit) : result (option pyval) :=
  if disk_mode RAG then
    match r with
    | DiskHit d => Ok (Some (image d))
    | NativeHit _ => Raise TypeError
    end
  else
    match r with
    | NativeHit n =>
        match base64 n with
        | Some s =>
            if String.eqb s "" then Ok None
            else b ← b64decode imaging s; Ok (Some (PyBytes b))
        | None => Ok None
        end
    | DiskHit _ => Ok None
    end.

(** [Image.open(BytesIO(image_data))].  [BytesIO] takes bytes or another
    buffer and raises on any other object; [Image.open] raises on bytes
    that hold no image, which the raw memory of a float array is taken
    to be. *)
Definition open_image (image_data : pyval) : result bytes :=
  match image_data with
  | PyBytes b => _ ← image_open imaging b; Ok b
  | PyArray _ => Raise UnidentifiedImageError
  | PyObject _ => Raise TypeError
  end.

(** One turn of the loop: [None] when the result was skipped, else the
    relative path appended to [images]. *)
Definition process_result (RAG : RAGModel) (session_id : string) (r : hit)
  : M (option string) :=
  data ← lift (image_data_of RAG r);
  match data with
  | None => _ ← emit (EvLogWarning "process_results"); mret None
  | Some image_data =>
      b ← lift (open_image image_data);
      let image_path :=
        PyStr.path_join (session_images_folder session_id) (image_filename b) in
      there ← path_exists image_path;
      _ ← (if negb there then image_save image_path else mret tt);
      mret (Some (relative_path session_id b))
  end.

Fixpoint process_loop (RAG : RAGModel) (session_id : string)
    (results : list hit) (images : list string) : M (list string) :=
  match results with
  | [] => mret images
  | r :: results' =>
      o ← process_result RAG session_id r;
      process_loop RAG session_id results'
        (match o with Some p => images ++ [p] | None => images end)
  end.

(** [os.makedirs(.., exist_ok=True)] only creates the directory, which the
    world does not record. *)
Definition process_results (results : list hit) (RAG : RAGModel)
    (session_id : string) : M (list string) :=
  process_loop RAG session_id results [].

(** *** [retrieve_documents] (retriever.py) *)

(** [RAG.search(query, k=k)] *)
Definition native_search (RAG : RAGModel) (query : string) (k : Z)
  : M (list hit) :=
  _ ← emit (EvSearch query k);
  rs ← lift (search RAG query k);
  mret (map NativeHit rs).

(** The dispatch on the storage mode. *)
Definition primary_search (RAG : RAGModel) (query : string) (k : Z)
  : M (list hit) :=
  if disk_mode RAG
  then lift (rs ← retrieve_from_disk RAG query k; Ok (map DiskHit rs))
  else native_search RAG query k.

Definition primary_path (RAG : RAGModel) (query session_id : string) (k : Z)
  : M (list string) :=
  results ← primary_search RAG query k;
  process_results results RAG session_id.

Definition retrieve_documents (RAG : RAGModel) (query session_id : string)
    (k : Z) : M (list string) :=
  try_except
    (primary_path RAG query session_id k)
    (fun e =>
       if is_AttributeError e then
         _ ← emit (EvLogError "retrieve_documents" e);
         results ← native_search RAG query k;
         process_results results RAG session_id
       else
         _ ← emit (EvLogError "retrieve_documents" e);
         mret []).


(** *** [index_documents] (indexer.py) *)

(** What [index_documents] calls outside the module:
    [convert_docs_to_pdfs], [RAGMultiModalModel.from_pretrained] (which may
    raise, or hand back [None]), [os.listdir], and the content already in
    the store that [Cache(cache_dir)] opens. *)
Record IndexEnv : Type := {
  convert_docs_to_pdfs : string -> result unit;
  from_pretrained : string -> result (option RAGModel);
  listdir : string -> result (list string);
  open_cache : option string -> Cache
}.

(** Reading a local variable of the function: unbound until assigned. *)
Definition load_local {A} (slot : option A) : result A :=
  match slot with
  | Some a => Ok a
  | None => Raise UnboundLocalError
  end.

(** [RAG.use_disk_storage = True]; on [None] the assignment raises. *)
Definition set_use_disk_storage (RAG : option RAGModel) : result RAGModel :=
  match RAG with
  | Some r =>
      Ok {| use_disk_storage := Some true;
            disk_cache := disk_cache r;
            encode_query := encode_query r;
            search := search r;
            index_document := index_document r |}
  | None => Raise AttributeError
  end.

(** [RAG.disk_cache = dc] *)
Definition set_disk_cache (r : RAGModel) (dc : DiskCacheIndexer) : RAGModel :=
  {| use_disk_storage := use_disk_storage r;
     disk_cache := Some dc;
     encode_query := encode_query r;
     search := search r;
     index_document := index_document r |}.

(** [for i, (image, embedding) in enumerate(zip(images, embeddings))],
    counting from [i]. *)
Fixpoint store_pages (dc : DiskCacheIndexer) (file : string) (i : nat)
    (pages : list (pyval * pyval)) : DiskCacheIndexer :=
  match pages with
  | [] => dc
  | (image, embedding) :: pages' =>
      let key := file ++ "_" ++ PyStr.of_nat i in
      let dc := store_image dc key image in
      let dc := store_embedding dc key embedding in
      store_pages dc file (S i) pages'
  end.

(** [for file in os.listdir(folder_path)].  The cache is a store on disk:
    what was written before an exception stays written, so the loop
    returns the cache also when it raises. *)
Fixpoint index_files (RAG : RAGModel) (folder_path : string)
    (listing : list string) (dc : DiskCacheIndexer)
  : result unit * DiskCacheIndexer :=
  match listing with
  | [] => (Ok tt, dc)
  | file :: listing' =>
      if PyStr.endswith file ".pdf" then
        let pdf_path := PyStr.path_join folder_path file in
        match index_document RAG pdf_path with
        | Ok (images, embeddings) =>
            index_files RAG folder_path listing'
              (store_pages dc file 0 (combine images embeddings))
        | Raise e => (Raise e, dc)
        end
      else index_files RAG folder_path listing' dc
  end.

(** The body of the [try].  [disk_cache] is a local variable of the
    function, first assigned after the model has been set up. *)
Definition index_documents_body (env : IndexEnv) (folder_path : string)
    (index_path : option string) (indexer_model : string) : result RAGModel :=
  let disk_cache_local : option DiskCacheIndexer := None in
  _ ← convert_docs_to_pdfs env folder_path;
  loaded ← from_pretrained env indexer_model;
  RAG ← set_use_disk_storage loaded;
  dc ← load_local disk_cache_local;
  let RAG := set_disk_cache RAG dc in
  (* [if RAG is None: raise ValueError]: [RAG] is an object by now. *)
  let disk_cache_local := Some {| cache := open_cache env index_path |} in
  listing ← listdir env folder_path;
  dc ← load_local disk_cache_local;
  match index_files RAG folder_path listing dc with
  | (Ok _, dc) =>
      RAG ← set_use_disk_storage (Some RAG);
      Ok (set_disk_cache RAG dc)
  | (Raise e, _) => Raise e
  end.

(** [except Exception as e: logger.error(..); raise] *)
Definition index_documents (env : IndexEnv) (folder_path index_name : string)
    (index_path : option string) (indexer_model : string) : M RAGModel :=
  try_except
    (lift (index_documents_body env folder_path index_path indexer_model))
    (fun e => _ ← emit (EvLogError "index_documents" e); raise e).


End Engine.

(** ** Vocabulary of the statements *)

(** [x <= y] on floats; false as soon as one side is NaN. *)
Definition f64_le (x y : F64.t) : Prop := SFleb x y = true.

Definition zero_or_nan (x : F64.t) : Prop :=
  F64.is_zero x = true \/ x = F64.nan.

(** Every component is [0.0] or [-0.0]. *)
Definition all_zero (v : embedding) : Prop :=
  Forall (fun x => F64.is_zero x = true) v.

Definition no_nan (r : SearchResult) : Prop :=
  F64.is_nan (similarity r) = false.

(** Descending by similarity; on equal similarity, in the order [before]. *)
Definition ranked (before : relation SearchResult) (a b : SearchResult) : Prop :=
  f64_le (similarity b) (similarity a) /\
  (F64.eqb (similarity a) (similarity b) = true -> before a b).

(** Descending by similarity, and by ascending key where similarities are
    equal. *)
Definition ranked_by_key : relation SearchResult :=
  ranked (fun a b => PyStr.lt (key a) (key b)).

Definition is_embedding_key (k : string) : bool :=
  PyStr.endswith k "_embedding".

(** The world after a handler has logged the exception. *)
Definition logged (site : string) (e : exn) (w : world) : world :=
  World (files w) (trace w ++ [EvLogError site e]).

Section Vocabulary.

Context {blob : Type} {pickle : Pickle blob} (imaging : Imaging).

Implicit Types (c : gmap string blob) (qe : embedding)
  (RAG : RAGModel (blob := blob)).

(** The keys that the scan visits. *)
Definition embedding_keys c : list string :=
  List.filter is_embedding_key (iterkeys c).

(** An entry is valid when the body of the loop goes through for it: the
    embedding unpickles to an array of the query's length, and the image
    under the key that the loop computes is there and unpickles. *)
Definition valid_entry c qe (k : string) : bool :=
  is_ok (scan_entry c qe k).

Definition valid_entries c qe : nat :=
  length (List.filter (valid_entry c qe) (embedding_keys c)).

(** Every cached embedding entry is valid for the query. *)
Definition all_valid c qe : Prop :=
  forallb (valid_entry c qe) (embedding_keys c) = true.

(** No similarity computed for the query over the cache is NaN. *)
Definition no_nan_entry c qe (k : string) : bool :=
  match scan_entry c qe k with
  | Ok r => negb (F64.is_nan (similarity r))
  | Raise _ => true
  end.

Definition no_nan_scores c qe : Prop :=
  forallb (no_nan_entry c qe) (embedding_keys c) = true.

(** What one result has to offer the materializer: an exception, nothing
    ([continue]), or image bytes that open. *)
Definition usable RAG (r : hit) : result (option bytes) :=
  match image_data_of imaging RAG r with
  | Raise e => Raise e
  | Ok None => Ok None
  | Ok (Some v) =>
      match open_image imaging v with
      | Ok b => Ok (Some b)
      | Raise e => Raise e
      end
  end.

(** The file that [process_results] looks for and saves. *)
Definition image_path (session_id : string) (b : bytes) : string :=
  PyStr.path_join (session_images_folder session_id) (image_filename imaging b).

(** The fallback of the [AttributeError] handler: the native search, then
    the materializer. *)
Definition fallback RAG (query session_id : string) (k : Z) : M (list string) :=
  results ← native_search RAG query k;
  process_results imaging results RAG session_id.

End Vocabulary.

(** ** A concrete store and concrete libraries, for running the code *)

Module Sample.

(** A stored blob is the pickle stream of a value, or anything else. *)
Inductive stored : Type :=
  | Pickled (v : pyval)
  | Garbage (raw : bytes).

#[global] Instance pickle : Pickle stored := {|
  pickle_dumps := Pickled;
  pickle_loads s :=
    match s with
    | Pickled v => Ok v
    | Garbage _ => Raise UnpicklingError
    end;
  pickle_loads_dumps := fun v => eq_refl
|}.

Definition hex_digit (n : N) : ascii :=
  ascii_of_N (if (n <? 10)%N then 48 + n else 87 + n).

Definition hex_of_byte (b : Byte.byte) : string :=
  let n := Byte.to_N b in
  String (hex_digit (n / 16)) (String (hex_digit (n mod 16)) EmptyString).

(** Stand-ins: an image is a buffer that starts with the PNG signature
    byte, the digest is the hexadecimal text of the bytes, and base64 text
    is taken byte for byte. *)
Definition imaging : Imaging := {|
  image_open b :=
    match b with
    | Byte.x89 :: _ => Ok tt
    | _ => Raise UnidentifiedImageError
    end;
  md5_hexdigest b := String.concat "" (map hex_of_byte b);
  b64decode s := Ok (list_byte_of_string s)
|}.

Definition png (tag : Byte.byte) : bytes := [Byte.x89; tag].

Definition vec (l : list Z) : embedding := map F64.of_Z l.

(** A model in disk mode over the given cache, whose native search finds
    nothing. *)
Definition disk_model (c : gmap string stored) (q : embedding)
  : RAGModel (blob := stored) := {|
  use_disk_storage := Some true;
  disk_cache := Some {| cache := c |};
  encode_query := fun _ => Ok q;
  search := fun _ _ => Ok [];
  index_document := fun _ => Ok ([], [])
|}.

Definition w0 : world := World ∅ [].

Definition q10 : embedding := vec [1; 0].

Definition hit_of (tag : Byte.byte) : hit :=
  DiskHit {| similarity := F64.of_Z 1; image := PyBytes (png tag); key := "k" |}.

(** An entry whose bytes are no image: the empty buffer. *)
Definition hit_undecodable : hit :=
  DiskHit {| similarity := F64.of_Z 1; image := PyBytes []; key := "bad" |}.

Definition dc_empty : DiskCacheIndexer (blob := stored) := {| cache := ∅ |}.

Definition page (tag : Byte.byte) (e : embedding) : pyval * pyval :=
  (PyBytes (png tag), PyArray e).

(** Three pages of one document, with embeddings [[1,0]], [[0,1]] and
    [[0.9,0.1]]. *)
Definition three_pages : DiskCacheIndexer (blob := stored) :=
  store_pages dc_empty "a.pdf" 0
    [page Byte.x01 (vec [1; 0]);
     page Byte.x02 (vec [0; 1]);
     page Byte.x03 [F64.of_ratio 9 10; F64.of_ratio 1 10]].

(** One page written as a pair, and an embedding whose image was never
    written. *)
Definition with_orphan : DiskCacheIndexer (blob := stored) :=
  store_embedding
    (store_pages dc_empty "a.pdf" 0 [page Byte.x01 (vec [1; 0])])
    "b.pdf_0" (PyArray (vec [0; 1])).

(** One page written as a pair, and a pair whose embedding blob is no
    pickle stream. *)
Definition with_corrupt : DiskCacheIndexer (blob := stored) :=
  let dc := store_pages dc_empty "a.pdf" 0 [page Byte.x01 (vec [1; 0])] in
  let dc := store_image dc "b.pdf_0" (PyBytes (png Byte.x03)) in
  {| cache := cache_set (cache dc) "b.pdf_0_embedding" (Garbage []) |}.

(** Two pages with the same embedding, stored in the order [b], [a]. *)
Definition with_tie : DiskCacheIndexer (blob := stored) :=
  store_pages
    (store_pages dc_empty "b.pdf" 0 [page Byte.x02 (vec [2; 0])])
    "a.pdf" 0 [page Byte.x01 (vec [1; 0])].

(** A model as [byaldi] provides it, switched to disk mode: there is no
    [encode_query] method, and the native search returns result objects
    with [base64] data. *)
Definition byaldi_model (c : gmap string stored) : RAGModel (blob := stored) := {|
  use_disk_storage := Some true;
  disk_cache := Some {| cache := c |};
  encode_query := fun _ => Raise AttributeError;
  search := fun _ _ =>
    Ok [{| doc_id := 0; page_num := 1; base64 := Some "iVBORw0KGgo=" |}];
  index_document := fun _ => Ok ([], [])
|}.

(** An encoder that fails on [bad.pdf] and gives one page for any other
    document. *)
Definition picky_model : RAGModel (blob := stored) := {|
  use_disk_storage := None;
  disk_cache := None;
  encode_query := fun _ => Ok (vec [1; 0]);
  search := fun _ _ => Ok [];
  index_document := fun path =>
    if String.eqb path "docs/bad.pdf" then Raise ValueError
    else Ok ([PyBytes (png Byte.x01)], [PyArray (vec [1; 0])])
|}.

Definition env_of (loaded : result (option (RAGModel (blob := stored))))
    (listing : list string) : IndexEnv (blob := stored) := {|
  convert_docs_to_pdfs := fun _ => Ok tt;
  from_pretrained := fun _ => loaded;
  listdir := fun _ => Ok listing;
  open_cache := fun _ => ∅
|}.

End Sample.

(** ** The answer generator (responder.py) *)

(** What [generate_response] calls outside the module.  [qwen] stands for
    the steps from [load_model('qwen')] to [output_text[0]], given the
    image paths, the two sizes, the query and [max_new_tokens];
    [openai_chat] for the request to the chat API, given the image paths,
    the query and [max_tokens]; [exn_str] is [str(e)]. *)
Record Generation : Type := {
  qwen : list string -> Z -> Z -> string -> Z -> result string;
  openai_chat : list string -> string -> Z -> result string;
  exn_str : exn -> string
}.

(** Reading a global name of the module that no statement binds. *)
Definition load_global {A} (binding : option A) : result A :=
  match binding with
  | Some a => Ok a
  | None => Raise (OtherError "NameError")
  end.

(** [os.path.join('static', img) if not img.startswith('static') else img] *)
Definition full_image_path (img : string) : string :=
  if String.prefix "static" img then img else PyStr.path_join "static" img.

(** [[img for img in full_image_paths if os.path.exists(img)]] *)
Definition valid_images (images : list string) (w : world) : list string :=
  List.filter (fun img => bool_decide (img ∈ files w))
              (map full_image_path images).

(** The branch of [model_choice == 'qwen'].  [//] is the floor division. *)
Definition qwen_branch (gen : Generation) (valid : list string)
    (resized_height resized_width : Z) (query answer_length : string)
  : result string :=
  let resized_height := (resized_height / 28) * 28 in
  let resized_width := (resized_width / 28) * 28 in
  let max_new_tokens :=
    if String.eqb answer_length "short" then 128
    else if String.eqb answer_length "long" then 500
    else 128 in
  qwen gen valid resized_height resized_width query max_new_tokens.

(** The branch of [model_choice == 'gpt4'].  The module imports the class
    [OpenAI] alone, so the name [openai] of [openai.api_key = api_key] is
    bound nowhere.  The request that follows reads the files of [images]. *)
Definition gpt4_branch (gen : Generation) (images : list string)
    (query answer_length : string) : result string :=
  let openai_module : option unit := None in
  _ ← load_global openai_module;
  let max_tokens := if String.eqb answer_length "short" then 128 else 500 in
  openai_chat gen images query max_tokens.

(** The body of the [try].  The two sizes are integers already, so that
    [int(..)] gives them back.  The error record for an unknown model
    choice is written without an exception; it is kept here as a record
    that carries the model choice. *)
Definition generate_response_body (gen : Generation) (images : list string)
    (query session_id : string) (resized_height resized_width : Z)
    (model_choice answer_length : string) : M string :=
  fun w =>
    let valid := valid_images images w in
    match valid with
    | [] =>
        (_ ← emit (EvLogWarning "generate_response");
         mret "No images could be loaded for analysis.") w
    | _ :: _ =>
        if String.eqb model_choice "qwen" then
          lift (qwen_branch gen valid resized_height resized_width query
                            answer_length) w
        else if String.eqb model_choice "gpt4" then
          lift (gpt4_branch gen images query answer_length) w
        else
          (_ ← emit (EvLogError "generate_response" (OtherError model_choice));
           mret "Invalid model selected.") w
    end.

(** [except Exception as e]: the error is logged and a sentence with
    [str(e)] is the answer. *)
Definition generate_response (gen : Generation) (images : list string)
    (query session_id : string) (resized_height resized_width : Z)
    (model_choice answer_length : string) : M string :=
  try_except
    (generate_response_body gen images query session_id resized_height
                            resized_width model_choice answer_length)
    (fun e =>
       _ ← emit (EvLogError "generate_response" e);
       mret ("An error occurred while generating the response: "
             ++ exn_str gen e)).

(** ** Section references (app.py) *)

(** A [dict] with string keys and values, in insertion order.
    [d[k] = v] keeps the place of a key that is there and appends a new
    one; [d.get(k)] is the value, or [None]. *)
Definition PyDict : Type := list (string * string).

Fixpoint dict_get (d : PyDict) (k : string) : option string :=
  match d with
  | [] => None
  | (k', v) :: d' => if String.eqb k' k then Some v else dict_get d' k
  end.

Fixpoint dict_set (d : PyDict) (k v : string) : PyDict :=
  match d with
  | [] => [(k, v)]
  | (k', v') :: d' =>
      if String.eqb k' k then (k', v) :: d' else (k', v') :: dict_set d' k v
  end.

(** One turn of the loop of [get_section_texts].  [if text:] is false for
    [None] and for the empty text. *)
Definition add_section_text (sections_dict section_texts : PyDict)
    (sec : string) : PyDict :=
  match dict_get sections_dict sec with
  | Some text =>
      if String.eqb text "" then section_texts
      else dict_set section_texts sec text
  | None => section_texts
  end.

(** [get_section_texts]: the loop over the references, from the empty
    dictionary. *)
Definition get_section_texts (sections_referenced : list string)
    (sections_dict : PyDict) : PyDict :=
  fold_left (add_section_text sections_dict) sections_referenced [].

(** ** Vocabulary of the further statements *)

Section MoreVocabulary.

Context {blob : Type} {pickle : Pickle blob} (imaging : Imaging).

Implicit Types (c : gmap string blob) (qe : embedding)
  (RAG : RAGModel (blob := blob)).

(** What a result says about the cache: its key holds an array, its
    similarity is that of the array with the query, and its image is the
    value under the rewritten key. *)
Definition from_cache c qe (r : SearchResult) : Prop :=
  exists emb,
    loads_opt (cache_get c (key r)) = Ok (PyArray emb) /\
    compute_similarity qe emb = Ok (similarity r) /\
    loads_opt (cache_get c (PyStr.replace (key r) "_embedding" "_image")) =
      Ok (image r).

(** The paths saved by the events of a trace, in order. *)
Definition saved_paths (t : list event) : list string :=
  omap (fun ev => match ev with EvSave p => Some p | _ => None end) t.

(** [f"{file}_{i}"], the base key of page [i] of a document. *)
Definition page_key (file : string) (i : nat) : string :=
  file ++ "_" ++ PyStr.of_nat i.

(** The last character of a string. *)
Fixpoint last_char (s : string) : option ascii :=
  match s with
  | EmptyString => None
  | String c EmptyString => Some c
  | String _ s' => last_char s'
  end.

(** No underscore occurs in the string. *)
Fixpoint no_underscore (s : string) : bool :=
  match s with
  | EmptyString => true
  | String c s' => negb (Ascii.eqb c "_") && no_underscore s'
  end.

(** What a run of the materializer does to the world, whether it returns
    or raises: it appends events, and the files afterwards are the files
    before and the saved ones, each saved once and none that existed. *)
Definition only_adds (w w' : world) : Prop :=
  exists t : list event,
    trace w' = (trace w ++ t)%list /\
    files w' = list_to_set (saved_paths t) ∪ files w /\
    NoDup (saved_paths t) /\
    (forall p, p ∈ saved_paths t -> p ∉ files w).

(** The keys under which the pages of the listed PDF documents go. *)
Definition listed_key (listing : list string) (k : string) : Prop :=
  exists file j,
    In file listing /\ PyStr.endswith file ".pdf" = true /\
    (k = page_key file j ++ "_image" \/ k = page_key file j ++ "_embedding").

(** The pages are fit for the query: every embedding is an array of the
    query's length. *)
Definition pages_fit (qe : embedding) (pages : list (pyval * pyval)) : Prop :=
  forall i image v,
    pages !! i = Some (image, v) ->
    exists e, v = PyArray e /\ length qe = length e.

(** A result that is a page of the document with the image of that
    page. *)
Definition own_page (file : string) (qe : embedding)
    (pages : list (pyval * pyval)) (r : SearchResult) : Prop :=
  exists i e,
    pages !! i = Some (image r, PyArray e) /\
    key r = page_key file i ++ "_embedding" /\
    compute_similarity qe e = Ok (similarity r).



End MoreVocabulary.

(** ** More concrete data *)

Module SampleMore.

Import Sample.

(** A generator whose model always answers. *)
Definition generation : Generation := {|
  qwen := fun _ _ _ _ _ => Ok "a generated answer";
  openai_chat := fun _ _ _ => Ok "a reply of the API";
  exn_str := fun e =>
    match e with
    | OtherError name => name
    | _ => "an exception"
    end
|}.

(** A world in which one image file exists. *)
Definition w_one_image : world :=
  World {["static/images/s/retrieved_8901.png"]} [].

(** The two best pages of [three_pages] for the query [[1,0]]. *)
Definition top2 : list SearchResult :=
  Eval vm_compute in
    match retrieve_from_disk (disk_model (cache three_pages) q10) "q" 2 with
    | Ok rs => rs
    | Raise _ => []
    end.

(** The result for the page of [three_pages] that is left out. *)
Definition left_out : SearchResult :=
  {| similarity := S754_zero false;
     image := PyBytes (png Byte.x02);
     key := "a.pdf_1_embedding" |}.

Definition three_page_list : list (pyval * pyval) :=
  [page Byte.x01 (vec [1; 0]);
   page Byte.x02 (vec [0; 1]);
   page Byte.x03 [F64.of_ratio 9 10; F64.of_ratio 1 10]].

(** What the encoder of [picky_model] gives for a document. *)
Definition one_page_docs (file : string) : list pyval * list pyval :=
  ([PyBytes (png Byte.x01)], [PyArray (vec [1; 0])]).

End SampleMore.


(** * Properties *)

(** ** Strings and numbers on small inputs *)

Example endswith_ex : PyStr.endswith "doc.pdf_0_embedding" "_embedding" = true.
Proof. reflexivity. Qed.

Example replace_ex :
  PyStr.replace "doc.pdf_0_embedding" "_embedding" "_image" = "doc.pdf_0_image".
Proof. reflexivity. Qed.

Example replace_all_ex : PyStr.replace "aXbXXc" "X" "yy" = "ayybyyyyc".
Proof. reflexivity. Qed.

Example of_nat_ex : PyStr.of_nat 12 = "12".
Proof. reflexivity. Qed.

Example f64_one_plus_one : F64.add (F64.of_Z 1) (F64.of_Z 1) = F64.of_Z 2.
Proof. reflexivity. Qed.

Example f64_zero_div_zero : F64.div F64.zero F64.zero = F64.nan.
Proof. reflexivity. Qed.

(** ** The key of the sibling image *)

Ltac step_prefix H :=
  cbv [String.prefix String.append] in H;
  repeat match type of H with
         | context [ascii_dec ?a ?b] =>
             destruct (ascii_dec a b); [subst | discriminate H]
         end.

(** An occurrence of [_embedding] that starts inside [base] also ends
    inside it: the text has one underscore, at its head. *)
Lemma prefix_across_boundary (base : string) :
  base <> "" ->
  String.prefix "_embedding" (base ++ "_embedding") = true ->
  String.prefix "_embedding" base = true.
Proof.
  intros Hne H.
  destruct base as [|c1 base]; [congruence|].
  do 9 (destruct base as [|? base]; [exfalso; step_prefix H; try discriminate|]).
  step_prefix H. cbv [String.prefix].
  repeat match goal with
         | |- context [ascii_dec ?a ?b] => destruct (ascii_dec a b); [|congruence]
         end.
  destruct base; reflexivity.
Qed.

(** For a base key without [_embedding] in it, the rewritten key is the
    sibling key. *)
Lemma replace_suffix_only (base : string) :
  PyStr.contains "_embedding" base = false ->
  PyStr.replace (base ++ "_embedding") "_embedding" "_image" = base ++ "_image".
Proof.
  unfold PyStr.replace. induction base as [|c base IH]; intros Hc.
  - reflexivity.
  - cbn [PyStr.contains] in Hc. apply orb_false_iff in Hc as [Hp Hc].
    change (String c base ++ "_embedding")
      with (String c (base ++ "_embedding")).
    cbn [PyStr.replace_from].
    destruct (String.prefix "_embedding" (String c (base ++ "_embedding")))
      eqn:E.
    + apply (prefix_across_boundary (String c base)) in E; congruence.
    + change (String c base ++ "_image") with (String c (base ++ "_image")).
      f_equal. now apply IH.
Qed.

(** ** The order of keys *)

Lemma str_le_iff (a b : string) : PyStr.le a b <-> PyStr.lt a b \/ a = b.
Proof.
  unfold PyStr.le, PyStr.lt, String.leb, String.ltb.
  destruct (String.compare a b) eqn:E.
  - apply String_as_OT.cmp_eq in E. intuition congruence.
  - intuition congruence.
  - split; [discriminate|]. intros [H | ->]; [discriminate|].
    assert (String_as_OT.cmp b b = Eq) as E' by (now apply String_as_OT.cmp_eq).
    unfold String_as_OT.cmp in E'. congruence.
Qed.

Lemma str_lt_iff (a b : string) : PyStr.lt a b <-> String_as_OT.lt a b.
Proof.
  unfold PyStr.lt, String.ltb. rewrite <- String_as_OT.cmp_lt.
  unfold String_as_OT.cmp. destruct (String.compare a b); intuition congruence.
Qed.

Lemma str_lt_irrefl (a : string) : ~ PyStr.lt a a.
Proof.
  rewrite str_lt_iff. intros H.
  exact (String_as_OT.lt_not_eq a a H (eq_refl a)).
Qed.

Lemma str_lt_trans (a b c : string) : PyStr.lt a b -> PyStr.lt b c -> PyStr.lt a c.
Proof. rewrite !str_lt_iff. apply String_as_OT.lt_trans. Qed.

#[global] Instance str_le_total : Total PyStr.le.
Proof. intros a b. apply String.leb_total. Qed.

#[global] Instance str_le_trans : Transitive PyStr.le.
Proof.
  intros a b c. rewrite !str_le_iff.
  intros [H1 | ->] [H2 | ->]; eauto using str_lt_trans.
Qed.

Section CacheFacts.

Context {blob : Type} {pickle : Pickle blob}.

Lemma elem_of_iterkeys (c : gmap string blob) (k : string) :
  k ∈ iterkeys c <-> is_Some (c !! k).
Proof.
  unfold iterkeys. rewrite merge_sort_Permutation, elem_of_elements.
  apply elem_of_dom.
Qed.

Lemma NoDup_iterkeys (c : gmap string blob) : NoDup (iterkeys c).
Proof.
  unfold iterkeys. rewrite merge_sort_Permutation. apply NoDup_elements.
Qed.

Lemma StronglySorted_strict (l : list string) :
  StronglySorted PyStr.le l -> NoDup l -> StronglySorted PyStr.lt l.
Proof.
  induction 1 as [|a l Hl IH Ha]; intros Hnd; constructor.
  - apply IH. now apply NoDup_cons_1_2 in Hnd.
  - apply NoDup_cons_1_1 in Hnd.
    rewrite Forall_forall in Ha |- *. intros x Hx.
    destruct (proj1 (str_le_iff a x) (Ha x Hx)) as [?| ->]; [assumption|].
    now destruct Hnd.
Qed.

(** The keys come in strictly ascending order. *)
Lemma iterkeys_ascending (c : gmap string blob) :
  StronglySorted PyStr.lt (iterkeys c).
Proof.
  apply StronglySorted_strict; [|apply NoDup_iterkeys].
  unfold iterkeys. apply (StronglySorted_merge_sort PyStr.le).
Qed.

Lemma iterkeys_empty : iterkeys (∅ : gmap string blob) = [].
Proof. reflexivity. Qed.

End CacheFacts.

(** ** The cache round trip *)

Section RoundTrip.

Context {blob : Type} {pickle : Pickle blob}.

Lemma suffix_keys_differ (k : string) : k ++ "_image" <> k ++ "_embedding".
Proof.
  induction k as [|a k IH]; simpl; [discriminate|].
  intros H. injection H as H. now apply IH.
Qed.

(** C9. Reading back what was stored: [get_image(key)] after
    [store_image(key, value)] returns the stored value, and
    [get_embedding(key)] after [store_embedding(key, value)] likewise, for
    every cache, key and value. *)
Theorem store_get_roundtrip (self : DiskCacheIndexer (blob := blob))
    (k : string) (value : pyval) :
  get_image (store_image self k value) k = Ok value /\
  get_embedding (store_embedding self k value) k = Ok value.
Proof.
  unfold get_image, get_embedding, store_image, store_embedding,
    cache_get, cache_set; simpl.
  rewrite !lookup_insert_eq; simpl.
  now rewrite pickle_loads_dumps.
Qed.

(** Writing the sibling afterwards, as the indexing loop does, leaves the
    image in place. *)
Lemma store_pair_get_image (self : DiskCacheIndexer (blob := blob))
    (k : string) (img emb : pyval) :
  get_image (store_embedding (store_image self k img) k emb) k = Ok img.
Proof.
  unfold get_image, store_image, store_embedding, cache_get, cache_set; simpl.
  rewrite lookup_insert_ne by (apply not_eq_sym, suffix_keys_differ).
  rewrite lookup_insert_eq; simpl. apply pickle_loads_dumps.
Qed.

(** A later write under the same key wins. *)
Lemma store_image_overwrites (self : DiskCacheIndexer (blob := blob))
    (k : string) (old new : pyval) :
  get_image (store_image (store_image self k old) k new) k = Ok new.
Proof.
  unfold get_image, store_image, cache_get, cache_set; simpl.
  rewrite lookup_insert_eq; simpl. apply pickle_loads_dumps.
Qed.

End RoundTrip.

(** ** Cosine similarity on a zero vector *)

Section ZeroNorm.

Lemma mul_zero_r (x z : F64.t) :
  F64.is_zero z = true -> zero_or_nan (F64.mul x z).
Proof.
  destruct z; try discriminate. intros _.
  destruct x; cbn; unfold zero_or_nan; auto.
Qed.

Lemma mul_zero_l (x z : F64.t) :
  F64.is_zero z = true -> zero_or_nan (F64.mul z x).
Proof.
  destruct z; try discriminate. intros _.
  destruct x; cbn; unfold zero_or_nan; auto.
Qed.

Lemma add_zero_or_nan (x y : F64.t) :
  zero_or_nan x -> zero_or_nan y -> zero_or_nan (F64.add x y).
Proof.
  unfold zero_or_nan.
  intros [Hx | Hx] [Hy | Hy];
    destruct x; try discriminate; destruct y; try discriminate; cbn; auto.
  repeat match goal with s : bool |- _ => destruct s end; cbn; auto.
Qed.

Lemma div_zero_or_nan (x y : F64.t) :
  zero_or_nan x -> zero_or_nan y -> F64.div x y = F64.nan.
Proof.
  unfold zero_or_nan.
  intros [Hx | Hx] [Hy | Hy];
    destruct x; try discriminate; destruct y; try discriminate; reflexivity.
Qed.

Lemma sqrt_zero (x : F64.t) :
  F64.is_zero x = true -> F64.is_zero (F64.sqrt x) = true.
Proof. destruct x; try discriminate. reflexivity. Qed.

Lemma fold_products_zero_or_nan (xy : list (F64.t * F64.t)) (acc : F64.t) :
  zero_or_nan acc ->
  Forall (fun p => F64.is_zero (fst p) = true \/ F64.is_zero (snd p) = true) xy ->
  zero_or_nan
    (fold_left (fun acc xy => F64.add acc (F64.mul (fst xy) (snd xy))) xy acc).
Proof.
  revert acc. induction xy as [|p xy IH]; intros acc Hacc Hall; simpl.
  - assumption.
  - apply Forall_cons in Hall as [Hp Hall]. apply IH; [|assumption].
    apply add_zero_or_nan; [assumption|].
    destruct Hp; [now apply mul_zero_l | now apply mul_zero_r].
Qed.

Lemma combine_zero_r (a b : embedding) :
  all_zero b ->
  Forall (fun p => F64.is_zero (fst p) = true \/ F64.is_zero (snd p) = true)
         (combine a b).
Proof.
  intros Hb. revert a. induction Hb as [|y b Hy Hb IH]; intros [|x a]; simpl;
    try constructor; auto.
Qed.

Lemma combine_zero_l (a b : embedding) :
  all_zero a ->
  Forall (fun p => F64.is_zero (fst p) = true \/ F64.is_zero (snd p) = true)
         (combine a b).
Proof.
  intros Ha. revert b. induction Ha as [|x a Hx Ha IH]; intros [|y b]; simpl;
    try constructor; auto.
Qed.

Lemma fold_squares_zero (v : embedding) (acc : F64.t) :
  F64.is_zero acc = true -> all_zero v ->
  F64.is_zero
    (fold_left (fun acc xy => F64.add acc (F64.mul (fst xy) (snd xy)))
               (combine v v) acc) = true.
Proof.
  intros Hacc Hv. revert acc Hacc.
  induction Hv as [|x v Hx Hv IH]; intros acc Hacc; simpl; [assumption|].
  apply IH. destruct acc; try discriminate. destruct x; try discriminate.
  repeat match goal with s : bool |- _ => destruct s end; reflexivity.
Qed.

(** The norm of a zero vector is a zero. *)
Lemma norm_all_zero (v : embedding) :
  all_zero v -> F64.is_zero (np_linalg_norm v) = true.
Proof.
  intros Hv. unfold np_linalg_norm, sum_products.
  apply sqrt_zero, fold_squares_zero; [reflexivity | assumption].
Qed.

End ZeroNorm.

(** ** The order of similarities *)

Section FloatOrder.

Ltac split_floats :=
  repeat match goal with
         | x : spec_float |- _ => destruct x
         | x : F64.t |- _ => destruct x
         end;
  repeat match goal with s : bool |- _ => destruct s end;
  cbn in *; try discriminate; try reflexivity; try congruence.

Ltac split_compares :=
  change (Pos.compare_cont Eq) with Pos.compare in *;
  repeat match goal with
         | H : context [Z.compare ?a ?b] |- _ =>
             destruct (Z.compare_spec a b); cbn in H
         | |- context [Z.compare ?a ?b] =>
             destruct (Z.compare_spec a b); cbn
         | H : context [Pos.compare ?a ?b] |- _ =>
             destruct (Pos.compare_spec a b); cbn in H
         | |- context [Pos.compare ?a ?b] =>
             destruct (Pos.compare_spec a b); cbn
         end;
  try discriminate; try reflexivity; try congruence; try lia.

Lemma not_ltb_le (x y : F64.t) :
  F64.is_nan x = false -> F64.is_nan y = false ->
  F64.ltb x y = false -> f64_le y x.
Proof.
  unfold f64_le, F64.ltb, SFltb, SFleb. intros Hx Hy.
  split_floats; split_compares.
Qed.

Lemma ltb_not_eqb (x y : F64.t) :
  F64.ltb x y = true -> F64.eqb y x = false.
Proof.
  unfold F64.ltb, F64.eqb, SFltb, SFeqb.
  split_floats; split_compares.
Qed.

Lemma ltb_le (x y : F64.t) : F64.ltb x y = true -> f64_le x y.
Proof.
  unfold f64_le, F64.ltb, SFltb, SFleb.
  destruct (SFcompare x y) as [[]|]; congruence.
Qed.

Lemma f64_le_trans (x y z : F64.t) : f64_le x y -> f64_le y z -> f64_le x z.
Proof.
  unfold f64_le, SFleb.
  split_floats; split_compares.
Qed.

End FloatOrder.

(** ** The stable descending sort *)

Section SortFacts.

(** Results that come earlier in the list being sorted. *)
Variable before : relation SearchResult.

Local Abbreviation ranked := (ranked before).

Lemma insert_desc_Permutation (r : SearchResult) (l : list SearchResult) :
  insert_desc r l ≡ₚ r :: l.
Proof.
  induction l as [|r' l IH]; simpl; [reflexivity|].
  destruct (F64.ltb _ _); [|reflexivity].
  rewrite IH. apply Permutation_swap.
Qed.

Lemma sort_desc_Permutation (l : list SearchResult) : sort_desc l ≡ₚ l.
Proof.
  induction l as [|r l IH]; simpl; [reflexivity|].
  unfold sort_desc in *. simpl. rewrite insert_desc_Permutation.
  now rewrite IH.
Qed.

Lemma sort_desc_length (l : list SearchResult) :
  length (sort_desc l) = length l.
Proof. apply Permutation_length, sort_desc_Permutation. Qed.

Lemma insert_desc_ranked (r : SearchResult) (l : list SearchResult) :
  no_nan r -> Forall no_nan l ->
  Forall (before r) l ->
  StronglySorted ranked l ->
  StronglySorted ranked (insert_desc r l).
Proof.
  intros Hr. induction l as [|r' l IH]; intros Hnn Hbef Hs; simpl.
  - repeat constructor.
  - apply Forall_cons in Hnn as [Hr' Hnn].
    apply Forall_cons in Hbef as [Hb' Hbef].
    apply StronglySorted_cons in Hs as [Hall Hs].
    destruct (F64.ltb (similarity r) (similarity r')) eqn:Hlt.
    + apply StronglySorted_cons. split; [|now apply IH].
      rewrite insert_desc_Permutation. constructor; [|assumption].
      split; [now apply ltb_le|].
      intros Heq. apply ltb_not_eqb in Hlt. congruence.
    + assert (f64_le (similarity r') (similarity r)) as Hle
        by (now apply not_ltb_le).
      apply StronglySorted_cons. split.
      * constructor; [split; auto|].
        rewrite Forall_forall in Hall, Hbef |- *. intros y Hy.
        split; [|auto].
        eapply f64_le_trans; [apply (Hall y Hy) | exact Hle].
      * apply StronglySorted_cons. now split.
Qed.

Lemma sort_desc_ranked (l : list SearchResult) :
  Forall no_nan l ->
  StronglySorted before l ->
  StronglySorted ranked (sort_desc l).
Proof.
  induction l as [|r l IH]; intros Hnn Hs.
  - constructor.
  - apply Forall_cons in Hnn as [Hr Hnn].
    apply StronglySorted_cons in Hs as [Hall Hs].
    change (sort_desc (r :: l)) with (insert_desc r (sort_desc l)).
    apply insert_desc_ranked; auto.
    + now rewrite sort_desc_Permutation.
    + now rewrite sort_desc_Permutation.
Qed.

Lemma StronglySorted_take {A} (R : relation A) (l : list A) (n : nat) :
  StronglySorted R l -> StronglySorted R (take n l).
Proof.
  intros Hs. rewrite <- (take_drop n l) in Hs.
  now apply StronglySorted_app_1_l in Hs.
Qed.

Lemma StronglySorted_slice_to {A} (R : relation A) (l : list A) (k : Z) :
  StronglySorted R l -> StronglySorted R (slice_to l k).
Proof. unfold slice_to. destruct (k <? 0); apply StronglySorted_take. Qed.

End SortFacts.

(** ** The disk-backed search *)

Section Search.

Context {blob : Type} {pickle : Pickle blob}.

Implicit Types (c : gmap string blob) (qe : embedding) (RAG : RAGModel (blob := blob)).

Lemma scan_entry_key c qe k r : scan_entry c qe k = Ok r -> key r = k.
Proof.
  unfold scan_entry. cbn.
  destruct (loads_opt (cache_get c k)) as [v|]; cbn; [|discriminate].
  destruct (as_array v) as [e|]; cbn; [|discriminate].
  destruct (compute_similarity qe e) as [s|]; cbn; [|discriminate].
  destruct (loads_opt _) as [i|]; cbn; [|discriminate].
  now intros [= <-].
Qed.

Lemma scan_keys c qe keys rs :
  scan c qe keys = Ok rs -> map key rs = List.filter is_embedding_key keys.
Proof.
  revert rs. induction keys as [|k keys IH]; intros rs; simpl.
  - now intros [= <-].
  - unfold is_embedding_key at 1. destruct (PyStr.endswith k "_embedding").
    + cbn. destruct (scan_entry c qe k) as [r|] eqn:Hr; cbn; [|discriminate].
      destruct (scan c qe keys) as [rs'|]; cbn; [|discriminate].
      intros [= <-]. simpl. f_equal; [now apply scan_entry_key in Hr | now apply IH].
    + apply IH.
Qed.

(** The scan returns when, and only when, every visited entry is valid. *)
Lemma scan_ok c qe keys :
  Forall (fun k => valid_entry c qe k = true) (List.filter is_embedding_key keys) ->
  exists rs, scan c qe keys = Ok rs.
Proof.
  induction keys as [|k keys IH]; simpl; [eauto|].
  unfold is_embedding_key at 1. destruct (PyStr.endswith k "_embedding").
  - intros H. apply Forall_cons in H as [Hk H].
    destruct (IH H) as [rs ->]. unfold valid_entry in Hk. cbn.
    destruct (scan_entry c qe k); [cbn; eauto | discriminate].
  - apply IH.
Qed.

Lemma scan_raises c qe keys k :
  In k (List.filter is_embedding_key keys) -> valid_entry c qe k = false ->
  exists e, scan c qe keys = Raise e.
Proof.
  induction keys as [|k' keys IH]; simpl; [tauto|].
  unfold is_embedding_key at 1.
  destruct (PyStr.endswith k' "_embedding"); [|apply IH].
  simpl. intros [-> | Hin] Hbad; unfold valid_entry in *; cbn.
  - destruct (scan_entry c qe k); [discriminate | cbn; eauto].
  - destruct (scan_entry c qe k'); cbn; [|eauto].
    destruct (IH Hin Hbad) as [e ->]. cbn. eauto.
Qed.

Lemma StronglySorted_filter_bool {A} (R : relation A) (f : A -> bool) (l : list A) :
  StronglySorted R l -> StronglySorted R (List.filter f l).
Proof.
  induction 1 as [|a l Hl IH Ha]; simpl; [constructor|].
  destruct (f a); [|assumption]. constructor; [assumption|].
  rewrite Forall_forall in Ha |- *. intros x Hx.
  apply Ha. apply list_elem_of_In in Hx. apply filter_In in Hx.
  apply list_elem_of_In. tauto.
Qed.

Lemma StronglySorted_map_key (R : relation string) (rs : list SearchResult) :
  StronglySorted R (map key rs) ->
  StronglySorted (fun a b => R (key a) (key b)) rs.
Proof.
  induction rs as [|r rs IH]; simpl; intros H; [constructor|].
  apply StronglySorted_cons in H as [Ha H].
  constructor; [now apply IH|].
  apply Forall_forall. intros x Hx.
  eapply Forall_forall in Ha; [exact Ha|].
  apply list_elem_of_In, in_map, list_elem_of_In, Hx.
Qed.

(** The scan lists its results by ascending key. *)
Lemma scan_iterkeys_ascending c qe rs :
  scan c qe (iterkeys c) = Ok rs ->
  StronglySorted (fun a b => PyStr.lt (key a) (key b)) rs.
Proof.
  intros H. apply StronglySorted_map_key. rewrite (scan_keys _ _ _ _ H).
  apply StronglySorted_filter_bool, iterkeys_ascending.
Qed.

Lemma slice_to_length {A} (l : list A) (k : Z) :
  0 <= k -> Z.of_nat (length (slice_to l k)) = Z.min k (Z.of_nat (length l)).
Proof.
  intros Hk. unfold slice_to.
  destruct (Z.ltb_spec k 0); [lia|]. rewrite length_take. lia.
Qed.

End Search.

Section SearchClaims.

Context {blob : Type} {pickle : Pickle blob}.

Implicit Types (c : gmap string blob) (qe : embedding) (RAG : RAGModel (blob := blob)).

Lemma retrieve_from_disk_unfold RAG query k qe dc :
  encode_query RAG query = Ok qe -> disk_cache RAG = Some dc ->
  retrieve_from_disk RAG query k =
    rbind (scan (cache dc) qe (iterkeys (cache dc)))
          (fun results => Ok (slice_to (sort_desc results) k)).
Proof. intros Hq Hdc. unfold retrieve_from_disk. now rewrite Hq, Hdc. Qed.

Lemma filter_all_true {A} (f : A -> bool) (l : list A) :
  Forall (fun x => f x = true) l -> List.filter f l = l.
Proof.
  induction 1 as [|x l Hx Hl IH]; simpl; [reflexivity|].
  now rewrite Hx, IH.
Qed.

Lemma all_valid_Forall c qe :
  all_valid c qe ->
  Forall (fun k => valid_entry c qe k = true) (embedding_keys c).
Proof.
  unfold all_valid. rewrite forallb_forall, Forall_forall.
  intros H k Hk. now apply H, list_elem_of_In.
Qed.

(** C5, as amended. When every cached embedding entry is valid and
    [0 <= k], the disk-backed search returns, and returns exactly
    [min(k, number of valid entries)] results: never more than [k], all of
    them when fewer than [k] exist, and the empty sequence on an empty
    cache. *)
Theorem retrieve_from_disk_count RAG query k qe dc :
  encode_query RAG query = Ok qe ->
  disk_cache RAG = Some dc ->
  0 <= k ->
  all_valid (cache dc) qe ->
  exists rs,
    retrieve_from_disk RAG query k = Ok rs /\
    Z.of_nat (length rs) = Z.min k (Z.of_nat (valid_entries (cache dc) qe)) /\
    (cache dc = ∅ -> rs = []).
Proof.
  intros Hq Hdc Hk Hall. apply all_valid_Forall in Hall.
  rewrite (retrieve_from_disk_unfold _ _ _ _ _ Hq Hdc).
  destruct (scan_ok (cache dc) qe (iterkeys (cache dc)) Hall) as [all Hscan].
  rewrite Hscan. cbn. eexists. split; [reflexivity|].
  assert (length all = valid_entries (cache dc) qe) as Hlen.
  { unfold valid_entries. rewrite (filter_all_true _ _ Hall).
    unfold embedding_keys. rewrite <- (scan_keys _ _ _ _ Hscan).
    now rewrite length_map. }
  split.
  - rewrite slice_to_length by assumption. now rewrite sort_desc_length, Hlen.
  - intros Hempty. rewrite Hempty, iterkeys_empty in Hscan.
    injection Hscan as <-. unfold slice_to. now destruct (k <? 0), (Z.to_nat k).
Qed.

Lemma scan_no_nan c qe keys rs :
  forallb (no_nan_entry c qe) (List.filter is_embedding_key keys) = true ->
  scan c qe keys = Ok rs -> Forall no_nan rs.
Proof.
  revert rs. induction keys as [|k keys IH]; intros rs; simpl.
  - intros _ [= <-]. constructor.
  - unfold is_embedding_key at 1.
    destruct (PyStr.endswith k "_embedding"); [|apply IH].
    simpl. intros Hnn. apply andb_prop in Hnn as [Hk Hnn]. cbn.
    unfold no_nan_entry in Hk.
    destruct (scan_entry c qe k) as [r|] eqn:Hr; cbn; [|discriminate].
    destruct (scan c qe keys) as [rs'|]; cbn; [|discriminate].
    intros [= <-]. constructor; [|now apply IH].
    unfold no_nan. now apply negb_true_iff in Hk.
Qed.


(** Whatever the order of iteration, results of equal similarity keep the
    order in which the scan met them. *)
Lemma sort_desc_stable (before : relation SearchResult) (l : list SearchResult) (k : Z) :
  Forall no_nan l -> StronglySorted before l ->
  StronglySorted (ranked before) (slice_to (sort_desc l) k).
Proof. intros. now apply StronglySorted_slice_to, sort_desc_ranked. Qed.

(** The search raises as soon as one visited entry is not valid. *)
Lemma retrieve_from_disk_raises RAG query k qe dc bad :
  encode_query RAG query = Ok qe ->
  disk_cache RAG = Some dc ->
  In bad (embedding_keys (cache dc)) ->
  valid_entry (cache dc) qe bad = false ->
  exists e, retrieve_from_disk RAG query k = Raise e.
Proof.
  intros Hq Hdc Hin Hbad.
  rewrite (retrieve_from_disk_unfold _ _ _ _ _ Hq Hdc).
  destruct (scan_raises _ _ _ _ Hin Hbad) as [e ->]. cbn. eauto.
Qed.

(** A page written by the indexing loop under a base key without
    [_embedding] in it is found again with its own image. *)
Lemma scan_entry_finds_sibling (dc : DiskCacheIndexer (blob := blob))
    (base : string) (img : pyval) (e qe : embedding) (sim : F64.t) :
  PyStr.contains "_embedding" base = false ->
  compute_similarity qe e = Ok sim ->
  scan_entry
    (cache (store_embedding (store_image dc base img) base (PyArray e)))
    qe (base ++ "_embedding") =
    Ok {| similarity := sim; image := img; key := base ++ "_embedding" |}.
Proof.
  intros Hbase Hsim.
  unfold scan_entry, store_embedding, store_image, cache_get, cache_set.
  cbn [cache]. rewrite lookup_insert_eq. cbn [loads_opt].
  rewrite pickle_loads_dumps. cbn. rewrite Hsim. cbn.
  rewrite (replace_suffix_only base Hbase).
  rewrite lookup_insert_ne by (apply not_eq_sym, suffix_keys_differ).
  rewrite lookup_insert_eq. cbn [loads_opt]. rewrite pickle_loads_dumps.
  reflexivity.
Qed.


End SearchClaims.

(** ** The materializer *)

Section Materializer.

Context {blob : Type} {pickle : Pickle blob} (imaging : Imaging).

Implicit Types (RAG : RAGModel (blob := blob)) (w : world).

Lemma process_result_spec RAG session_id r w :
  process_result imaging RAG session_id r w =
    match usable imaging RAG r with
    | Raise e => (Raise e, w)
    | Ok None =>
        (Ok None, World (files w) (trace w ++ [EvLogWarning "process_results"]))
    | Ok (Some b) =>
        if bool_decide (image_path imaging session_id b ∈ files w)
        then (Ok (Some (relative_path imaging session_id b)), w)
        else (Ok (Some (relative_path imaging session_id b)),
              World ({[image_path imaging session_id b]} ∪ files w)
                    (trace w ++ [EvSave (image_path imaging session_id b)]))
    end.
Proof.
  unfold process_result, usable, mbind, M_bind, lift. cbn.
  destruct (image_data_of imaging RAG r) as [[v|]|e]; cbn; try reflexivity.
  destruct (open_image imaging v) as [b|e]; cbn; [|reflexivity].
  fold (image_path imaging session_id b).
  destruct (bool_decide (image_path imaging session_id b ∈ files w)); reflexivity.
Qed.

(** The loop raises as soon as one result has unusable image data. *)
Lemma process_loop_raises RAG session_id results images w r e :
  In r results -> usable imaging RAG r = Raise e ->
  exists e' w', process_loop imaging RAG session_id results images w = (Raise e', w').
Proof.
  revert images w. induction results as [|r' results IH]; intros images w; [intros []|].
  intros [-> | Hin] Hbad; simpl; unfold mbind, M_bind;
    rewrite process_result_spec.
  - rewrite Hbad. eauto.
  - destruct (usable imaging RAG r') as [[b|]|e0]; [| |eauto].
    + destruct (bool_decide _); now apply IH.
    + now apply IH.
Qed.


Lemma process_result_no_search RAG session_id r w :
  count_searches (trace (snd (process_result imaging RAG session_id r w))) =
  count_searches (trace w).
Proof.
  rewrite process_result_spec. unfold count_searches.
  destruct (usable imaging RAG r) as [[b|]|e]; simpl; try reflexivity.
  - destruct (bool_decide _); simpl; [reflexivity|].
    now rewrite List.filter_app, length_app, Nat.add_0_r.
  - now rewrite List.filter_app, length_app, Nat.add_0_r.
Qed.

Lemma process_loop_no_search RAG session_id results images w :
  count_searches (trace (snd (process_loop imaging RAG session_id results images w))) =
  count_searches (trace w).
Proof.
  revert images w. induction results as [|r results IH]; intros images w; simpl;
    [reflexivity|].
  unfold mbind, M_bind.
  pose proof (process_result_no_search RAG session_id r w) as H.
  destruct (process_result imaging RAG session_id r w) as [[o|e] w']; simpl in *.
  - now rewrite IH.
  - assumption.
Qed.

End Materializer.

Section MaterializerClaims.

Context {blob : Type} {pickle : Pickle blob} (imaging : Imaging).

Implicit Types (RAG : RAGModel (blob := blob)) (w : world).


(** The materializer does not absorb an undecodable entry. *)
Lemma process_results_raises RAG session_id results w r e :
  In r results -> usable imaging RAG r = Raise e ->
  exists e' w', process_results imaging results RAG session_id w = (Raise e', w').
Proof. apply process_loop_raises. Qed.

(** The one case that is skipped: a result of the native search without
    [base64] data, outside disk mode. *)
Lemma process_result_skips RAG session_id (n : NativeResult) w :
  disk_mode RAG = false -> base64 n = None ->
  process_result imaging RAG session_id (NativeHit n) w =
    (Ok None, World (files w) (trace w ++ [EvLogWarning "process_results"])).
Proof.
  intros Hm Hb. rewrite process_result_spec. unfold usable, image_data_of.
  now rewrite Hm, Hb.
Qed.

End MaterializerClaims.

(** ** The retrieval facade *)

Section Facade.

Context {blob : Type} {pickle : Pickle blob} (imaging : Imaging).

Implicit Types (RAG : RAGModel (blob := blob)) (w : world).

Lemma count_searches_app (t1 t2 : list event) :
  count_searches (t1 ++ t2) = (count_searches t1 + count_searches t2)%nat.
Proof. unfold count_searches. now rewrite List.filter_app, length_app. Qed.

Lemma native_search_spec RAG query k w :
  native_search RAG query k w =
    (match search RAG query k with
     | Ok rs => Ok (map NativeHit rs)
     | Raise e => Raise e
     end,
     World (files w) (trace w ++ [EvSearch query k])).
Proof.
  unfold native_search, mbind, M_bind, emit, lift, mret, M_ret. simpl.
  destruct (search RAG query k); reflexivity.
Qed.

(** The fallback calls the native search once. *)
Lemma fallback_one_search RAG query session_id k w :
  count_searches (trace (snd (fallback imaging RAG query session_id k w))) =
  S (count_searches (trace w)).
Proof.
  unfold fallback, mbind at 1, M_bind at 1. rewrite native_search_spec.
  destruct (search RAG query k) as [rs|e]; simpl.
  - unfold process_results. rewrite process_loop_no_search. simpl.
    rewrite count_searches_app. unfold count_searches. simpl. lia.
  - rewrite count_searches_app. unfold count_searches. simpl. lia.
Qed.

(** C4, as amended. [retrieve_documents] returns what the primary path
    returns; when the primary path raises [AttributeError] it logs and
    runs the native search exactly once more, through the materializer;
    when the primary path raises anything else it logs and returns the
    empty list, without a call of the native search. *)
Theorem retrieve_documents_dispatch RAG query session_id k w :
  match primary_path imaging RAG query session_id k w with
  | (Ok images, w1) =>
      retrieve_documents imaging RAG query session_id k w = (Ok images, w1)
  | (Raise e, w1) =>
      let wl := logged "retrieve_documents" e w1 in
      if is_AttributeError e then
        retrieve_documents imaging RAG query session_id k w =
          fallback imaging RAG query session_id k wl /\
        count_searches
          (trace (snd (retrieve_documents imaging RAG query session_id k w))) =
          S (count_searches (trace w1))
      else
        retrieve_documents imaging RAG query session_id k w = (Ok [], wl) /\
        count_searches (trace wl) = count_searches (trace w1)
  end.
Proof.
  unfold retrieve_documents, try_except.
  destruct (primary_path imaging RAG query session_id k w) as [[images|e] w1];
    [reflexivity|].
  cbv zeta. destruct (is_AttributeError e) eqn:He.
  - assert (forall w', (_ ← emit (EvLogError "retrieve_documents" e);
                        results ← native_search RAG query k;
                        process_results imaging results RAG session_id) w'
                       = fallback imaging RAG query session_id k
                           (logged "retrieve_documents" e w')) as Hfb
      by reflexivity.
    rewrite Hfb. split; [reflexivity|].
    rewrite fallback_one_search. unfold logged. simpl.
    rewrite count_searches_app. unfold count_searches. simpl. lia.
  - split; [reflexivity|]. unfold logged. simpl.
    rewrite count_searches_app. unfold count_searches. simpl. lia.
Qed.

(** What the fallback raises reaches the caller. *)
Lemma retrieve_documents_fallback_raises RAG query session_id k w w1 e :
  primary_path imaging RAG query session_id k w = (Raise AttributeError, w1) ->
  search RAG query k = Raise e ->
  fst (retrieve_documents imaging RAG query session_id k w) = Raise e.
Proof.
  intros Hp Hs. unfold retrieve_documents, try_except. rewrite Hp. simpl.
  unfold mbind, M_bind. simpl. rewrite native_search_spec, Hs. reflexivity.
Qed.

End Facade.

(** ** The indexing pipeline *)

Section Indexing.

Context {blob : Type} {pickle : Pickle blob}.

Implicit Types (RAG : RAGModel (blob := blob)) (env : IndexEnv (blob := blob))
  (dc : DiskCacheIndexer (blob := blob)) (w : world).



Lemma index_documents_spec env folder_path index_name index_path indexer_model w :
  index_documents env folder_path index_name index_path indexer_model w =
    match index_documents_body env folder_path index_path indexer_model with
    | Ok rag => (Ok rag, w)
    | Raise e => (Raise e, logged "index_documents" e w)
    end.
Proof.
  unfold index_documents, try_except, lift.
  destruct (index_documents_body _ _ _ _); reflexivity.
Qed.


(** The loop over a listing in two parts. *)
Lemma index_files_app RAG folder_path (l1 l2 : list string) dc :
  index_files RAG folder_path (l1 ++ l2) dc =
    match index_files RAG folder_path l1 dc with
    | (Ok _, dc') => index_files RAG folder_path l2 dc'
    | (Raise e, dc') => (Raise e, dc')
    end.
Proof.
  revert dc. induction l1 as [|file l1 IH]; intros dc; simpl; [reflexivity|].
  destruct (PyStr.endswith file ".pdf"); [|apply IH].
  destruct (index_document RAG _) as [[images embeddings]|e]; [apply IH|reflexivity].
Qed.

(** C8, as amended. Inside the loop over the folder no exception is
    handled per file: when the encoder raises on one document, the loop
    stops with that exception, the files listed after it are not indexed,
    and the pages written before it stay in the cache.  When the encoder
    cannot be loaded, [index_documents] logs and raises the loader's own
    exception. *)
Theorem index_failure_aborts RAG env folder_path (done rest : list string)
    (file : string) dc e :
  fst (index_files RAG folder_path done dc) = Ok tt ->
  PyStr.endswith file ".pdf" = true ->
  index_document RAG (PyStr.path_join folder_path file) = Raise e ->
  index_files RAG folder_path (done ++ file :: rest) dc =
    (Raise e, snd (index_files RAG folder_path done dc)) /\
  (forall index_name index_path indexer_model e' w,
     convert_docs_to_pdfs env folder_path = Ok tt ->
     from_pretrained env indexer_model = Raise e' ->
     index_documents env folder_path index_name index_path indexer_model w =
       (Raise e', logged "index_documents" e' w)).
Proof.
  intros Hdone Hpdf Hbad. split.
  - rewrite index_files_app.
    destruct (index_files RAG folder_path done dc) as [[[]|e0] dc'];
      [|discriminate].
    simpl. now rewrite Hpdf, Hbad.
  - intros index_name index_path indexer_model e' w Hc Hf.
    rewrite index_documents_spec. unfold index_documents_body.
    now rewrite Hc, Hf.
Qed.

End Indexing.

(** ** Similarity of a zero vector *)

(** C3, as amended. For two embeddings of one length, one of which is a
    zero vector, [compute_similarity] returns NaN: the quotient [0 / 0] is
    taken, no case is set apart for a zero norm. *)
Theorem compute_similarity_zero_vector (q d : embedding) :
  length q = length d ->
  all_zero q \/ all_zero d ->
  compute_similarity q d = Ok F64.nan.
Proof.
  intros Hlen Hz. unfold compute_similarity, np_dot.
  rewrite Hlen, Nat.eqb_refl. cbn. f_equal.
  apply div_zero_or_nan.
  - unfold sum_products. apply fold_products_zero_or_nan; [now left|].
    destruct Hz; [now apply combine_zero_l | now apply combine_zero_r].
  - destruct Hz as [Hq | Hd].
    + apply mul_zero_l. now apply norm_all_zero.
    + apply mul_zero_r. now apply norm_all_zero.
Qed.

(** ** Failures of single entries *)

Section EntryFailures.

Context {blob : Type} {pickle : Pickle blob} (imaging : Imaging).

(** C1, as amended. A failure on one entry is not absorbed.  When one of
    the scanned embedding keys has no sibling image under the key the loop
    computes, or a blob that does not unpickle, the disk-backed search
    raises and returns nothing; when one result of a batch carries image
    data that cannot be opened, the materializer raises and returns no
    path. *)
Theorem entry_failure_not_absorbed :
  (forall (RAG : RAGModel (blob := blob)) query k qe dc bad,
     encode_query RAG query = Ok qe ->
     disk_cache RAG = Some dc ->
     In bad (embedding_keys (cache dc)) ->
     valid_entry (cache dc) qe bad = false ->
     exists e, retrieve_from_disk RAG query k = Raise e) /\
  (forall (RAG : RAGModel (blob := blob)) session_id results w r e,
     In r results ->
     usable imaging RAG r = Raise e ->
     exists e' w',
       process_results imaging results RAG session_id w = (Raise e', w')).
Proof.
  split.
  - intros RAG query k qe dc bad. apply retrieve_from_disk_raises.
  - intros RAG session_id results w r e. apply process_results_raises.
Qed.

End EntryFailures.

(** ** Runs on concrete inputs *)

Import Sample.

(** The scenario of the specification: query [[1,0]] and [k = 2] over the
    three pages ranks the page of [[1,0]] before the page of [[0.9,0.1]]. *)
Example three_pages_top2 :
  (map key <$> retrieve_from_disk (disk_model (cache three_pages) q10) "q" 2) =
  Ok ["a.pdf_0_embedding"; "a.pdf_2_embedding"].
Proof. vm_compute. reflexivity. Qed.

(** Against C1: with one orphaned embedding next to a valid pair the search
    raises, although one entry is valid; and a batch of two good images
    around one undecodable entry raises in the materializer. *)
Lemma entry_failure_raises :
  valid_entries (cache with_orphan) q10 = 1%nat /\
  retrieve_from_disk (disk_model (cache with_orphan) q10) "q" 3 =
    Raise TypeError /\
  fst (process_results imaging
         [hit_of Byte.x01; hit_undecodable; hit_of Byte.x02]
         (disk_model (cache with_orphan) q10) "s" w0) =
    Raise UnidentifiedImageError.
Proof. vm_compute. repeat split; reflexivity. Qed.

Lemma entry_failure_witness :
  (exists e,
     retrieve_from_disk (disk_model (cache with_orphan) q10) "q" 3 = Raise e) /\
  (exists e' w',
     process_results imaging
       [hit_of Byte.x01; hit_undecodable; hit_of Byte.x02]
       (disk_model (cache with_orphan) q10) "s" w0 = (Raise e', w')).
Proof.
  destruct (entry_failure_not_absorbed (blob := stored) imaging) as [Hs Hm].
  split.
  - apply (Hs _ "q" 3 q10 with_orphan "b.pdf_0_embedding").
    + reflexivity.
    + reflexivity.
    + vm_compute. right. left. reflexivity.
    + vm_compute. reflexivity.
  - apply (Hm _ "s" _ w0 hit_undecodable UnidentifiedImageError).
    + right. left. reflexivity.
    + vm_compute. reflexivity.
Defined.

(** Against C3: the document vector [[0,0]] has norm [0.0], and its
    similarity with [[1,0]] is NaN, not [0]. *)
Lemma zero_norm_gives_nan :
  np_linalg_norm (vec [0; 0]) = F64.zero /\
  compute_similarity q10 (vec [0; 0]) = Ok F64.nan /\
  compute_similarity q10 (vec [0; 0]) <> Ok F64.zero.
Proof. vm_compute. repeat split; try reflexivity. discriminate. Qed.

Lemma compute_similarity_zero_vector_witness :
  compute_similarity q10 (vec [0; 0]) = Ok F64.nan.
Proof.
  apply (compute_similarity_zero_vector q10 (vec [0; 0])).
  - reflexivity.
  - right. unfold all_zero. repeat constructor.
Defined.

(** Against C4: a [TypeError] in the primary path (the orphaned entry)
    ends in the empty list without any call of the native search, which
    would have answered; and with a model that has no [encode_query], the
    fallback runs and its [TypeError] reaches the caller. *)
Lemma retrieve_documents_no_fallback_and_raise :
  (let r := retrieve_documents imaging (disk_model (cache with_orphan) q10)
              "q" "s" 3 w0 in
   fst r = Ok [] /\ count_searches (trace (snd r)) = 0%nat /\
   is_ok (search (disk_model (cache with_orphan) q10) "q" 3) = true) /\
  (let r := retrieve_documents imaging (byaldi_model (cache three_pages))
              "q" "s" 3 w0 in
   fst r = Raise TypeError /\ count_searches (trace (snd r)) = 1%nat).
Proof. vm_compute. repeat split; reflexivity. Qed.

(** Against C5: over a cache with one valid entry and one corrupt blob the
    search with [k = 1] returns nothing at all; and with [k = -1] over
    three valid entries it returns two results. *)
Lemma retrieve_from_disk_count_fails :
  valid_entries (cache with_corrupt) q10 = 1%nat /\
  retrieve_from_disk (disk_model (cache with_corrupt) q10) "q" 1 =
    Raise UnpicklingError /\
  (length <$> retrieve_from_disk (disk_model (cache three_pages) q10) "q" (-1)) =
    Ok 2%nat.
Proof. vm_compute. repeat split; reflexivity. Qed.

Lemma retrieve_from_disk_count_witness :
  exists rs,
    retrieve_from_disk (disk_model (cache three_pages) q10) "q" 2 = Ok rs /\
    Z.of_nat (length rs) =
      Z.min 2 (Z.of_nat (valid_entries (cache three_pages) q10)) /\
    (cache three_pages = ∅ -> rs = []).
Proof.
  apply (retrieve_from_disk_count
           (disk_model (cache three_pages) q10) "q" 2 q10 three_pages).
  - reflexivity.
  - reflexivity.
  - lia.
  - vm_compute. reflexivity.
Defined.

(** Two pages of equal similarity, written in the order [b], [a]: the
    search lists them by key. *)
Example tie_in_key_order :
  (map key <$> retrieve_from_disk (disk_model (cache with_tie) q10) "q" 3) =
  Ok ["a.pdf_0_embedding"; "b.pdf_0_embedding"].
Proof. vm_compute. reflexivity. Qed.


(** The same image twice and another one, in one batch and then again:
    two files saved by the first call, none by the second, three paths
    each time. *)
Example materialize_twice :
  let batch := [hit_of Byte.x01; hit_of Byte.x02; hit_of Byte.x01] in
  let RAG := disk_model (cache three_pages) q10 in
  let r1 := process_results imaging batch RAG "s" w0 in
  let r2 := process_results imaging batch RAG "s" (snd r1) in
  fst r1 = Ok ["images/s/retrieved_8901.png"; "images/s/retrieved_8902.png";
               "images/s/retrieved_8901.png"] /\
  fst r2 = fst r1 /\
  trace (snd r1) = [EvSave "static/images/s/retrieved_8901.png";
                    EvSave "static/images/s/retrieved_8902.png"] /\
  trace (snd r2) = trace (snd r1).
Proof. vm_compute. repeat split; reflexivity. Qed.


(** Against C8: the encoder fails on [bad.pdf], listed before [good.pdf].
    The loop stops there and [good.pdf] is not indexed; the whole call
    raises; and a loader that fails with [OSError] makes the call raise
    that [OSError]. *)
Lemma index_failure_is_fatal :
  let run := index_files picky_model "docs" ["bad.pdf"; "good.pdf"] dc_empty in
  fst run = Raise ValueError /\
  get_image (snd run) "good.pdf_0" = Raise TypeError /\
  is_ok (fst (index_documents (env_of (Ok (Some picky_model))
                                      ["bad.pdf"; "good.pdf"])
                "docs" "document_index" None "vidore/colpali" w0)) = false /\
  fst (index_documents (env_of (Raise OSError) [])
         "docs" "document_index" None "vidore/colpali" w0) = Raise OSError.
Proof. vm_compute. repeat split; reflexivity. Qed.

Lemma index_failure_aborts_witness :
  index_files picky_model "docs"
    (["good.pdf"; "notes.txt"] ++ "bad.pdf" :: ["late.pdf"]) dc_empty =
    (Raise ValueError,
     snd (index_files picky_model "docs" ["good.pdf"; "notes.txt"] dc_empty)) /\
  (forall index_name index_path indexer_model e' w,
     convert_docs_to_pdfs (env_of (Raise OSError) []) "docs" = Ok tt ->
     from_pretrained (env_of (Raise OSError) []) indexer_model = Raise e' ->
     index_documents (env_of (Raise OSError) []) "docs" index_name index_path
       indexer_model w = (Raise e', logged "index_documents" e' w)).
Proof.
  apply (index_failure_aborts picky_model (env_of (Raise OSError) []) "docs"
           ["good.pdf"; "notes.txt"] ["late.pdf"] "bad.pdf" dc_empty ValueError).
  - reflexivity.
  - reflexivity.
  - reflexivity.
Defined.


(** C10. A document named [a_embedding.pdf]: its page is stored under
    [a_embedding.pdf_0_image] and [a_embedding.pdf_0_embedding], but the
    scan rewrites every [_embedding] of the key and asks for
    [a_image.pdf_0_image].  Alone in the cache the page makes the search
    raise; next to a document named [a_image.pdf] it is returned with the
    image of that other document. *)
Theorem sibling_key_of_embedding_in_name :
  let dc := store_pages dc_empty "a_embedding.pdf" 0 [page Byte.x01 q10] in
  let dc2 := store_pages dc "a_image.pdf" 0 [page Byte.x02 (vec [0; 1])] in
  PyStr.replace "a_embedding.pdf_0_embedding" "_embedding" "_image" =
    "a_image.pdf_0_image" /\
  get_image dc "a_embedding.pdf_0" = Ok (PyBytes (png Byte.x01)) /\
  retrieve_from_disk (disk_model (cache dc) q10) "q" 3 = Raise TypeError /\
  (map (fun r => (key r, image r)) <$>
     retrieve_from_disk (disk_model (cache dc2) q10) "q" 1) =
    Ok [("a_embedding.pdf_0_embedding", PyBytes (png Byte.x02))].
Proof. vm_compute. repeat split; reflexivity. Qed.

(** * Further properties *)

(** ** Symmetry of the similarity *)

Lemma f64_mul_comm (x y : F64.t) : F64.mul x y = F64.mul y x.
Proof.
  unfold F64.mul, SFmul.
  destruct x as [sx|sx| |sx mx ex], y as [sy|sy| |sy my ey];
    try reflexivity; try (now rewrite xorb_comm).
  now rewrite xorb_comm, Pos.mul_comm, Z.add_comm.
Qed.

Lemma fold_products_comm (a b : embedding) (acc : F64.t) :
  fold_left (fun acc xy => F64.add acc (F64.mul (fst xy) (snd xy)))
            (combine a b) acc =
  fold_left (fun acc xy => F64.add acc (F64.mul (fst xy) (snd xy)))
            (combine b a) acc.
Proof.
  revert b acc. induction a as [|x a IH]; intros [|y b] acc; simpl;
    try reflexivity.
  rewrite (f64_mul_comm x y). apply IH.
Qed.

(** [compute_similarity] does not depend on the order of its arguments:
    the same float, or the same exception, comes out either way. *)
Theorem compute_similarity_symmetric (q d : embedding) :
  compute_similarity q d = compute_similarity d q.
Proof.
  unfold compute_similarity, np_dot, sum_products.
  rewrite (Nat.eqb_sym (length q) (length d)).
  destruct (length d =? length q)%nat; [|reflexivity].
  cbn. rewrite (fold_products_comm q d).
  now rewrite (f64_mul_comm (np_linalg_norm q) (np_linalg_norm d)).
Qed.

(** ** What the search returns *)

Section SearchResults.

Context {blob : Type} {pickle : Pickle blob}.

Implicit Types (c : gmap string blob) (qe : embedding)
  (RAG : RAGModel (blob := blob)).

Lemma scan_entry_inv c qe k r :
  scan_entry c qe k = Ok r -> key r = k /\ from_cache c qe r.
Proof.
  intros H. pose proof (scan_entry_key _ _ _ _ H) as Hk. split; [exact Hk|].
  unfold from_cache. rewrite Hk. revert H. unfold scan_entry. cbn.
  destruct (loads_opt (cache_get c k)) as [v|]; cbn; [|discriminate].
  destruct v as [b|emb|o]; cbn; try discriminate.
  destruct (compute_similarity qe emb) as [s|] eqn:Hs; cbn; [|discriminate].
  destruct (loads_opt (cache_get c (PyStr.replace k _ _))) as [i|] eqn:Hi;
    cbn; [|discriminate].
  intros [= <-]. exists emb. cbn. auto.
Qed.

Lemma scan_Forall c qe keys rs :
  scan c qe keys = Ok rs ->
  Forall (fun r => scan_entry c qe (key r) = Ok r) rs.
Proof.
  revert rs. induction keys as [|k keys IH]; intros rs; simpl.
  - intros [= <-]. constructor.
  - destruct (PyStr.endswith k "_embedding"); [|apply IH].
    cbn. destruct (scan_entry c qe k) as [r|] eqn:Hr; cbn; [|discriminate].
    destruct (scan c qe keys) as [rs'|]; cbn; [|discriminate].
    intros [= <-]. constructor; [|now apply IH].
    now rewrite (scan_entry_key _ _ _ _ Hr).
Qed.

Lemma scan_complete c qe keys rs k r :
  scan c qe keys = Ok rs ->
  In k (List.filter is_embedding_key keys) ->
  scan_entry c qe k = Ok r -> In r rs.
Proof.
  revert rs. induction keys as [|k' keys IH]; intros rs; simpl; [tauto|].
  unfold is_embedding_key at 1.
  destruct (PyStr.endswith k' "_embedding"); [|apply IH].
  cbn. destruct (scan_entry c qe k') as [r'|] eqn:Hr'; cbn; [|discriminate].
  destruct (scan c qe keys) as [rs'|]; cbn; [|discriminate].
  intros [= <-] [-> | Hin] Hr.
  - left. congruence.
  - right. now apply IH.
Qed.

Lemma NoDup_filter_bool {A} (f : A -> bool) (l : list A) :
  NoDup l -> NoDup (List.filter f l).
Proof.
  induction 1 as [|x l Hx Hl IH]; simpl; [constructor|].
  destruct (f x); [|assumption]. constructor; [|assumption].
  intros Hin. apply Hx. apply list_elem_of_In in Hin.
  apply filter_In in Hin. apply list_elem_of_In. tauto.
Qed.

Lemma slice_to_sublist {A} (l : list A) (k : Z) : slice_to l k `sublist_of` l.
Proof. unfold slice_to. destruct (k <? 0); apply sublist_take. Qed.

Lemma retrieve_from_disk_scan RAG query k qe dc rs :
  encode_query RAG query = Ok qe ->
  disk_cache RAG = Some dc ->
  retrieve_from_disk RAG query k = Ok rs ->
  exists all,
    scan (cache dc) qe (iterkeys (cache dc)) = Ok all /\
    rs = slice_to (sort_desc all) k.
Proof.
  intros Hq Hdc. rewrite (retrieve_from_disk_unfold _ _ _ _ _ Hq Hdc).
  destruct (scan _ _ _) as [all|]; cbn; [|discriminate].
  intros [= <-]. eauto.
Qed.

(** Every result of the disk-backed search stands for one entry of the
    cache: its key is one of the scanned keys ending in [_embedding], no
    key comes twice, and similarity and image are what the cache holds
    for that key. *)
Theorem retrieve_from_disk_sound RAG query k qe dc rs :
  encode_query RAG query = Ok qe ->
  disk_cache RAG = Some dc ->
  retrieve_from_disk RAG query k = Ok rs ->
  NoDup (map key rs) /\
  Forall (fun r => In (key r) (embedding_keys (cache dc)) /\
                   from_cache (cache dc) qe r) rs.
Proof.
  intros Hq Hdc Hr.
  destruct (retrieve_from_disk_scan _ _ _ _ _ _ Hq Hdc Hr) as (all & Hscan & ->).
  pose proof (scan_keys _ _ _ _ Hscan) as Hkeys.
  pose proof (scan_Forall _ _ _ _ Hscan) as Hall.
  assert (slice_to (sort_desc all) k ⊆ all) as Hsub.
  { intros r Hin. rewrite <- (sort_desc_Permutation all).
    eapply sublist_subseteq; [apply slice_to_sublist | exact Hin]. }
  split.
  - apply (sublist_NoDup _ (map key (sort_desc all))).
    + rewrite (sort_desc_Permutation all), Hkeys.
      apply NoDup_filter_bool, NoDup_iterkeys.
    + exact (fmap_sublist key _ _ (slice_to_sublist (sort_desc all) k)).
  - apply Forall_forall. intros r Hin. apply Hsub in Hin.
    eapply Forall_forall in Hall; [|exact Hin].
    destruct (scan_entry_inv _ _ _ _ Hall) as [_ Hfrom]. split; [|exact Hfrom].
    unfold embedding_keys. rewrite <- Hkeys.
    apply in_map, list_elem_of_In, Hin.
Qed.

(** The results are the best entries: a cache entry that is valid for the
    query is either among the results or has a similarity no greater than
    that of every result.  As for the ranking, no similarity may be NaN. *)
Theorem retrieve_from_disk_top RAG query k qe dc rs k' r' :
  encode_query RAG query = Ok qe ->
  disk_cache RAG = Some dc ->
  no_nan_scores (cache dc) qe ->
  retrieve_from_disk RAG query k = Ok rs ->
  In k' (embedding_keys (cache dc)) ->
  scan_entry (cache dc) qe k' = Ok r' ->
  In r' rs \/
  Forall (fun r => f64_le (similarity r') (similarity r)) rs.
Proof.
  intros Hq Hdc Hnn Hr Hk' Hr'.
  destruct (retrieve_from_disk_scan _ _ _ _ _ _ Hq Hdc Hr) as (all & Hscan & ->).
  assert (In r' (sort_desc all)) as Hin.
  { apply list_elem_of_In. rewrite (sort_desc_Permutation all).
    apply list_elem_of_In. eapply scan_complete; eauto. }
  assert (StronglySorted ranked_by_key (sort_desc all)) as Hs.
  { apply sort_desc_ranked.
    - eapply scan_no_nan; [exact Hnn | exact Hscan].
    - now apply scan_iterkeys_ascending in Hscan. }
  unfold slice_to.
  set (n := if k <? 0 then (length (sort_desc all) - Z.to_nat (- k))%nat
            else Z.to_nat k).
  assert ((if k <? 0
           then take (length (sort_desc all) - Z.to_nat (- k)) (sort_desc all)
           else take (Z.to_nat k) (sort_desc all)) = take n (sort_desc all))
    as -> by (unfold n; now destruct (k <? 0)).
  rewrite <- (take_drop n (sort_desc all)) in Hin, Hs.
  apply in_app_or in Hin as [Hin | Hin]; [now left | right].
  apply Forall_forall. intros r Hr0.
  eapply (StronglySorted_app_1_elem_of _ _ _ r r') in Hs;
    [apply Hs | exact Hr0 | now apply list_elem_of_In].
Qed.

End SearchResults.

(** ** Paths of materialized images *)

Section Paths.

Lemma substring_last (c : ascii) (s : string) :
  String.substring (String.length s) 1 (String c s) =
  match last_char (String c s) with
  | Some x => String x EmptyString
  | None => EmptyString
  end.
Proof.
  revert c. induction s as [|c' s IH]; intros c; [reflexivity|].
  change (String.substring (String.length (String c' s)) 1 (String c (String c' s)))
    with (String.substring (String.length s) 1 (String c' s)).
  rewrite IH. reflexivity.
Qed.

Lemma endswith_slash (s : string) :
  PyStr.endswith s "/" =
  match last_char s with
  | Some c => Ascii.eqb c "/"
  | None => false
  end.
Proof.
  destruct s as [|c s]; [reflexivity|].
  unfold PyStr.endswith.
  change (String.length "/") with 1%nat.
  change (String.length (String c s)) with (S (String.length s)).
  replace (S (String.length s) - 1)%nat with (String.length s) by lia.
  change (1 <=? S (String.length s))%nat with true. cbv iota.
  rewrite substring_last.
  destruct (last_char (String c s)) as [x|]; [|reflexivity].
  cbn. now destruct (Ascii.eqb x "/").
Qed.

Lemma app_not_empty (a b : string) :
  b <> EmptyString -> a ++ b <> EmptyString.
Proof. destruct a; [trivial | discriminate]. Qed.

Lemma last_char_app (a b : string) :
  b <> EmptyString -> last_char (a ++ b) = last_char b.
Proof.
  intros Hb. induction a as [|c a IH]; [reflexivity|].
  change (String c a ++ b) with (String c (a ++ b)).
  pose proof (app_not_empty a b Hb) as Hne.
  destruct (a ++ b) as [|c' s]; [congruence|].
  cbn [last_char]. exact IH.
Qed.

Lemma prefix_slash_app (a b : string) :
  String.prefix "/" a = true -> String.prefix "/" (a ++ b) = true.
Proof.
  destruct a as [|c a]; [discriminate|].
  change (String c a ++ b) with (String c (a ++ b)).
  intros H. cbv [String.prefix] in H |- *.
  destruct (ascii_dec "/" c); [|discriminate H].
  now destruct (a ++ b).
Qed.

Lemma path_join_abs (a b : string) :
  String.prefix "/" b = true -> PyStr.path_join a b = b.
Proof. intros H. unfold PyStr.path_join. now rewrite H. Qed.

Lemma path_join_rel (c : ascii) (a b : string) :
  String.prefix "/" b = false ->
  PyStr.path_join (String c a) b =
    if PyStr.endswith (String c a) "/" then String c a ++ b
    else String c a ++ "/" ++ b.
Proof. intros H. unfold PyStr.path_join. now rewrite H. Qed.

(** Joining a path of [process_results] under [static] gives the file
    that [process_results] saves, for every session id. *)
Lemma static_relative_path (imaging : Imaging) (session_id : string) (b : bytes) :
  PyStr.path_join "static" (relative_path imaging session_id b) =
  image_path imaging session_id b.
Proof.
  unfold image_path, relative_path, session_images_folder, image_filename.
  set (fn := "retrieved_" ++ md5_hexdigest imaging b ++ ".png").
  assert (String.prefix "/" fn = false) as Hfn by reflexivity.
  change (PyStr.path_join "static" "images") with "static/images".
  destruct (String.prefix "/" session_id) eqn:Hs.
  - rewrite !(path_join_abs _ session_id Hs).
    destruct session_id as [|c sid]; [discriminate|].
    rewrite (path_join_rel c sid fn Hfn).
    apply path_join_abs.
    destruct (PyStr.endswith (String c sid) "/");
      now apply prefix_slash_app.
  - rewrite !(path_join_rel _ _ session_id Hs).
    change (PyStr.endswith "images" "/") with false.
    change (PyStr.endswith "static/images" "/") with false.
    cbv iota.
    change ("images" ++ "/" ++ session_id)
      with (String "i" ("mages/" ++ session_id)).
    change ("static/images" ++ "/" ++ session_id)
      with (String "s" ("tatic/" ++ String "i" ("mages/" ++ session_id))).
    pose (B := String "i" ("mages/" ++ session_id)).
    rewrite !(path_join_rel _ _ fn Hfn).
    change (String "s" ("tatic/" ++ String "i" ("mages/" ++ session_id)))
      with ("static/" ++ B).
    change (String "i" ("mages/" ++ session_id)) with B.
    rewrite (endswith_slash ("static/" ++ B)), last_char_app, <- endswith_slash
      by discriminate.
    assert (forall x, PyStr.path_join "static" (B ++ x) = "static/" ++ B ++ x)
      as HB by reflexivity.
    destruct (PyStr.endswith B "/"); rewrite HB; reflexivity.
Qed.

End Paths.

(** ** Effects and results of the materializer *)

Section MaterializerEffects.

Context {blob : Type} {pickle : Pickle blob} (imaging : Imaging).

Implicit Types (RAG : RAGModel (blob := blob)) (w : world).

Lemma saved_paths_app (t1 t2 : list event) :
  saved_paths (t1 ++ t2) = (saved_paths t1 ++ saved_paths t2)%list.
Proof. unfold saved_paths. apply omap_app. Qed.

Lemma only_adds_refl w : only_adds w w.
Proof.
  exists []. rewrite app_nil_r. simpl.
  repeat split; [set_solver | constructor | set_solver].
Qed.

Lemma only_adds_trans w1 w2 w3 :
  only_adds w1 w2 -> only_adds w2 w3 -> only_adds w1 w3.
Proof.
  intros (t1 & Ht1 & Hf1 & Hn1 & Hd1) (t2 & Ht2 & Hf2 & Hn2 & Hd2).
  exists (t1 ++ t2)%list. rewrite saved_paths_app.
  split; [now rewrite Ht2, Ht1, app_assoc|].
  split; [rewrite Hf2, Hf1; set_solver|].
  split.
  - apply NoDup_app. split; [assumption|]. split; [|assumption].
    intros p Hp1 Hp2. apply (Hd2 p Hp2). rewrite Hf1. set_solver.
  - intros p Hp. apply elem_of_app in Hp as [Hp | Hp]; [now apply Hd1|].
    intros Hin. apply (Hd2 p Hp). rewrite Hf1. set_solver.
Qed.

Lemma process_result_only_adds RAG session_id r w :
  only_adds w (snd (process_result imaging RAG session_id r w)).
Proof.
  rewrite process_result_spec.
  destruct (usable imaging RAG r) as [[b|]|e]; simpl.
  - destruct (bool_decide_reflect (image_path imaging session_id b ∈ files w))
      as [Hin | Hnin]; simpl; [apply only_adds_refl|].
    exists [EvSave (image_path imaging session_id b)]. simpl.
    repeat split; [set_solver | apply NoDup_singleton | set_solver].
  - exists [EvLogWarning "process_results"]. simpl.
    repeat split; [set_solver | constructor | set_solver].
  - apply only_adds_refl.
Qed.

Lemma process_loop_only_adds RAG session_id results images w :
  only_adds w (snd (process_loop imaging RAG session_id results images w)).
Proof.
  revert images w. induction results as [|r results IH]; intros images w; simpl.
  - apply only_adds_refl.
  - unfold mbind, M_bind.
    pose proof (process_result_only_adds RAG session_id r w) as H1.
    destruct (process_result imaging RAG session_id r w) as [[o|e] w1];
      simpl in *; [|exact H1].
    eapply only_adds_trans; [exact H1 | apply IH].
Qed.

(** Whatever the batch and whether the call returns or raises,
    [process_results] only adds to the session's files: the files after
    the call are the files before it and the files it saved, no saved path
    existed before, and none is saved twice. *)
Theorem process_results_only_adds results RAG session_id w :
  let w' := snd (process_results imaging results RAG session_id w) in
  exists t : list event,
    trace w' = (trace w ++ t)%list /\
    files w' = list_to_set (saved_paths t) ∪ files w /\
    NoDup (saved_paths t) /\
    (forall p, p ∈ saved_paths t -> p ∉ files w).
Proof. apply process_loop_only_adds. Qed.




Lemma only_adds_subseteq w w' : only_adds w w' -> files w ⊆ files w'.
Proof. intros (t & _ & -> & _). set_solver. Qed.

Lemma process_loop_paths_exist RAG session_id results images w paths w' :
  (forall p, In p images -> PyStr.path_join "static" p ∈ files w) ->
  process_loop imaging RAG session_id results images w = (Ok paths, w') ->
  forall p, In p paths -> PyStr.path_join "static" p ∈ files w'.
Proof.
  revert images w. induction results as [|r results IH]; intros images w Himg;
    simpl.
  - now intros [= <- <-].
  - unfold mbind, M_bind.
    pose proof (process_result_only_adds RAG session_id r w) as Hadd.
    apply only_adds_subseteq in Hadd. revert Hadd.
    rewrite process_result_spec.
    destruct (usable imaging RAG r) as [[b|]|e]; [| |discriminate].
    + destruct (bool_decide_reflect (image_path imaging session_id b ∈ files w))
        as [Hin | Hnin]; simpl; intros Hadd; apply IH;
        intros p Hp; apply in_app_or in Hp as [Hp | [<- | []]];
        try (apply Hadd, Himg, Hp);
        rewrite static_relative_path; set_solver.
    + simpl. intros Hadd. apply IH. intros p Hp. now apply Himg.
Qed.

(** Every path that [process_results] returns names, under [static], a
    file that exists when the call returns. *)
Theorem process_results_paths_exist results RAG session_id w paths w' :
  process_results imaging results RAG session_id w = (Ok paths, w') ->
  forall p, In p paths -> PyStr.path_join "static" p ∈ files w'.
Proof.
  unfold process_results. apply process_loop_paths_exist. intros p [].
Qed.


End MaterializerEffects.

(** ** The fallback in disk mode *)

Section DiskFallback.

Context {blob : Type} {pickle : Pickle blob} (imaging : Imaging).

Implicit Types (RAG : RAGModel (blob := blob)) (w : world).


End DiskFallback.

(** ** Keys of pages *)

Section PageKeys.

Lemma no_underscore_string_of_uint (d : Decimal.uint) :
  no_underscore (NilEmpty.string_of_uint d) = true.
Proof. induction d; simpl; auto. Qed.

Lemma no_underscore_of_nat (i : nat) : no_underscore (PyStr.of_nat i) = true.
Proof. apply no_underscore_string_of_uint. Qed.

Lemma no_underscore_app (a b : string) :
  no_underscore (a ++ String "_" b) = false.
Proof.
  induction a as [|c a IH]; [reflexivity|].
  change (String c a ++ String "_" b) with (String c (a ++ String "_" b)).
  cbn [no_underscore]. rewrite IH. apply andb_false_r.
Qed.

Lemma of_nat_inj (i j : nat) : PyStr.of_nat i = PyStr.of_nat j -> i = j.
Proof.
  unfold PyStr.of_nat. intros H.
  apply DecimalNat.Unsigned.to_uint_inj.
  apply (f_equal NilEmpty.uint_of_string) in H.
  rewrite !NilEmpty.usu in H. congruence.
Qed.

(** A string is split in one way at its last underscore. *)
Lemma split_at_last_underscore (a b d e : string) :
  no_underscore d = true -> no_underscore e = true ->
  a ++ String "_" d = b ++ String "_" e -> a = b /\ d = e.
Proof.
  intros Hd He. revert b. induction a as [|c a IH]; intros [|c' b] H.
  - injection H as ->. auto.
  - change (String "_" d = String c' (b ++ String "_" e)) in H.
    injection H as _ ->. now rewrite no_underscore_app in Hd.
  - change (String c (a ++ String "_" d) = String "_" e) in H.
    injection H as _ <-. now rewrite no_underscore_app in He.
  - change (String c (a ++ String "_" d) = String c' (b ++ String "_" e)) in H.
    injection H as -> H. destruct (IH b H) as [-> ->]. auto.
Qed.

Lemma page_key_inj (file1 file2 : string) (i j : nat) :
  page_key file1 i = page_key file2 j -> file1 = file2 /\ i = j.
Proof.
  unfold page_key. intros H.
  change ("_" ++ PyStr.of_nat i) with (String "_" (PyStr.of_nat i)) in H.
  change ("_" ++ PyStr.of_nat j) with (String "_" (PyStr.of_nat j)) in H.
  apply split_at_last_underscore in H as [-> H];
    auto using no_underscore_of_nat, of_nat_inj.
Qed.

(** Two pages share a base key only when they are the same page of a
    document of the same name: the keys [f"{file}_{i}"] of different
    pages never collide, whatever underscores and digits the names of the
    documents hold. *)
Theorem page_key_injective (file1 file2 : string) (i j : nat) :
  page_key file1 i = page_key file2 j -> file1 = file2 /\ i = j.
Proof. apply page_key_inj. Qed.

Lemma last_char_image (a : string) : last_char (a ++ "_image") = Some "e"%char.
Proof. now rewrite last_char_app by discriminate. Qed.

Lemma last_char_embedding (a : string) :
  last_char (a ++ "_embedding") = Some "g"%char.
Proof. now rewrite last_char_app by discriminate. Qed.

Lemma image_key_not_embedding_key (a b : string) :
  a ++ "_image" <> b ++ "_embedding".
Proof.
  intros H. apply (f_equal last_char) in H.
  rewrite last_char_image, last_char_embedding in H. discriminate.
Qed.

Lemma length_app_string (a s : string) :
  String.length (a ++ s) = (String.length a + String.length s)%nat.
Proof.
  induction a as [|c a IH]; [reflexivity|].
  change (String c a ++ s) with (String c (a ++ s)).
  cbn [String.length]. now rewrite IH.
Qed.

Lemma app_inv_tail_string (a b s : string) : a ++ s = b ++ s -> a = b.
Proof.
  revert b. induction a as [|c a IH]; intros [|c' b] H.
  - reflexivity.
  - exfalso. apply (f_equal String.length) in H.
    rewrite !length_app_string in H. cbn [String.length] in H. lia.
  - exfalso. apply (f_equal String.length) in H.
    rewrite !length_app_string in H. cbn [String.length] in H. lia.
  - change (String c (a ++ s) = String c' (b ++ s)) in H.
    injection H as -> H. f_equal. now apply IH.
Qed.

End PageKeys.

(** ** What the indexing loop stores *)

Section StoredPages.

Context {blob : Type} {pickle : Pickle blob}.

Implicit Types (dc : DiskCacheIndexer (blob := blob))
  (RAG : RAGModel (blob := blob)) (pages : list (pyval * pyval)).

Lemma cache_store_pages_cons dc file n image embedding pages :
  store_pages dc file n ((image, embedding) :: pages) =
  store_pages
    (store_embedding (store_image dc (page_key file n) image)
                     (page_key file n) embedding)
    file (S n) pages.
Proof. reflexivity. Qed.

(** The loop writes under the keys of its own pages only. *)
Lemma store_pages_other pages dc file n (k : string) :
  (forall j, (n <= j)%nat ->
             k <> page_key file j ++ "_image" /\
             k <> page_key file j ++ "_embedding") ->
  cache (store_pages dc file n pages) !! k = cache dc !! k.
Proof.
  revert dc n. induction pages as [|[image embedding] pages IH]; intros dc n Hk;
    [reflexivity|].
  rewrite cache_store_pages_cons, IH by (intros j Hj; apply Hk; lia).
  destruct (Hk n (le_n n)) as [Hi He].
  unfold store_embedding, store_image, cache_set. cbn [cache].
  now rewrite !lookup_insert_ne by congruence.
Qed.

Lemma page_keys_differ file (i j : nat) (s : string) :
  i <> j -> page_key file i ++ s <> page_key file j ++ s.
Proof.
  intros Hij H. apply app_inv_tail_string, page_key_inj in H. tauto.
Qed.

Lemma store_pages_lookup_from pages dc file n i image embedding :
  pages !! i = Some (image, embedding) ->
  cache (store_pages dc file n pages) !! (page_key file (n + i) ++ "_image") =
    Some (pickle_dumps image) /\
  cache (store_pages dc file n pages) !! (page_key file (n + i) ++ "_embedding") =
    Some (pickle_dumps embedding).
Proof.
  revert dc n i. induction pages as [|[image0 embedding0] pages IH];
    intros dc n i Hi; [discriminate|].
  rewrite cache_store_pages_cons. destruct i as [|i].
  - injection Hi as -> ->. rewrite Nat.add_0_r.
    rewrite !store_pages_other.
    + unfold store_embedding, store_image, cache_set. cbn [cache].
      rewrite lookup_insert_ne
        by apply not_eq_sym, image_key_not_embedding_key.
      now rewrite !lookup_insert_eq.
    + intros j Hj. split.
      * apply not_eq_sym, image_key_not_embedding_key.
      * apply page_keys_differ. lia.
    + intros j Hj. split.
      * apply page_keys_differ. lia.
      * apply image_key_not_embedding_key.
  - replace (n + S i)%nat with (S n + i)%nat by lia. now apply IH.
Qed.

(** Every page that the loop over a document has stored can be read back:
    [get_image] and [get_embedding] under the key of page [i] return the
    [i]-th image and the [i]-th embedding, whatever the other pages and
    the cache before. *)
Theorem store_pages_lookup pages dc file i image embedding :
  pages !! i = Some (image, embedding) ->
  get_image (store_pages dc file 0 pages) (page_key file i) = Ok image /\
  get_embedding (store_pages dc file 0 pages) (page_key file i) = Ok embedding.
Proof.
  intros Hi. unfold get_image, get_embedding, cache_get.
  destruct (store_pages_lookup_from pages dc file 0 i image embedding Hi)
    as [Him Hem].
  change (0 + i)%nat with i in Him, Hem. rewrite Him, Hem.
  cbn [loads_opt]. now rewrite !pickle_loads_dumps.
Qed.

End StoredPages.

(** ** Pages found again by the scan *)

Section IndexedThenScanned.

Context {blob : Type} {pickle : Pickle blob}.

Implicit Types (dc : DiskCacheIndexer (blob := blob))
  (pages : list (pyval * pyval)).

Ltac match_prefix H :=
  cbv [String.prefix String.append] in H;
  repeat match type of H with
         | context [ascii_dec ?a ?b] =>
             let e := fresh "e" in
             destruct (ascii_dec a b) as [e|];
             [try discriminate e; subst | discriminate H]
         end.

Lemma prefix_across_page_number (base d : string) :
  base <> "" ->
  String.prefix "_embedding" (base ++ String "_" d) = true ->
  String.prefix "_embedding" base = true.
Proof.
  intros Hne H.
  destruct base as [|c1 base]; [congruence|].
  do 9 (destruct base as [|? base]; [exfalso; match_prefix H|]).
  match_prefix H. cbv [String.prefix].
  repeat match goal with
         | |- context [ascii_dec ?a ?b] => destruct (ascii_dec a b); [|congruence]
         end.
  destruct base; reflexivity.
Qed.

Lemma contains_no_underscore (d : string) :
  no_underscore d = true -> PyStr.contains "_embedding" d = false.
Proof.
  induction d as [|c d IH]; [reflexivity|].
  cbn [no_underscore PyStr.contains]. intros H.
  apply andb_prop in H as [Hc Hd]. rewrite (IH Hd), orb_false_r.
  cbv [String.prefix]. destruct (ascii_dec "_" c) as [<-|]; [discriminate|].
  reflexivity.
Qed.

Lemma of_nat_not_e (i : nat) (rest : string) :
  String.prefix (String "e" rest) (PyStr.of_nat i) = false.
Proof.
  unfold PyStr.of_nat. destruct (Nat.to_uint i); reflexivity.
Qed.

(** The base key of a page holds [_embedding] only if the name of the
    document does. *)
Lemma contains_page_key (file : string) (i : nat) :
  PyStr.contains "_embedding" file = false ->
  PyStr.contains "_embedding" (page_key file i) = false.
Proof.
  unfold page_key.
  change ("_" ++ PyStr.of_nat i) with (String "_" (PyStr.of_nat i)).
  induction file as [|c file IH]; intros Hc.
  - change ("" ++ String "_" (PyStr.of_nat i))
      with (String "_" (PyStr.of_nat i)).
    cbn [PyStr.contains].
    rewrite (contains_no_underscore _ (no_underscore_of_nat i)), orb_false_r.
    change (String.prefix "_embedding" (String "_" (PyStr.of_nat i)))
      with (String.prefix "embedding" (PyStr.of_nat i)).
    apply of_nat_not_e.
  - cbn [PyStr.contains] in Hc. apply orb_false_iff in Hc as [Hp Hc].
    change (String c file ++ String "_" (PyStr.of_nat i))
      with (String c (file ++ String "_" (PyStr.of_nat i))).
    cbn [PyStr.contains]. rewrite (IH Hc), orb_false_r.
    destruct (String.prefix "_embedding"
                (String c (file ++ String "_" (PyStr.of_nat i)))) eqn:E;
      [|reflexivity].
    apply (prefix_across_page_number (String c file)) in E; congruence.
Qed.

Lemma scan_entry_page pages dc file i image e qe sim :
  PyStr.contains "_embedding" file = false ->
  pages !! i = Some (image, PyArray e) ->
  compute_similarity qe e = Ok sim ->
  scan_entry (cache (store_pages dc file 0 pages)) qe
             (page_key file i ++ "_embedding") =
    Ok {| similarity := sim; image := image;
          key := page_key file i ++ "_embedding" |}.
Proof.
  intros Hfile Hi Hsim.
  destruct (store_pages_lookup_from pages dc file 0 i _ _ Hi) as [Him Hem].
  change (0 + i)%nat with i in Him, Hem.
  unfold scan_entry, cache_get. rewrite Hem. cbn [loads_opt].
  rewrite pickle_loads_dumps. cbn. rewrite Hsim. cbn.
  rewrite (replace_suffix_only _ (contains_page_key file i Hfile)), Him.
  cbn [loads_opt]. now rewrite pickle_loads_dumps.
Qed.

(** A page that the indexing loop has stored is found by the loop body of
    the search together with its own image, provided the name of the
    document does not contain [_embedding] and the embedding is an array
    of the query's length. *)
Theorem scan_entry_stored_page pages dc file i image e qe sim :
  PyStr.contains "_embedding" file = false ->
  pages !! i = Some (image, PyArray e) ->
  compute_similarity qe e = Ok sim ->
  scan_entry (cache (store_pages dc file 0 pages)) qe
             (page_key file i ++ "_embedding") =
    Ok {| similarity := sim; image := image;
          key := page_key file i ++ "_embedding" |}.
Proof. apply scan_entry_page. Qed.

End IndexedThenScanned.

(** ** The loop over the folder *)

Section FolderLoop.

Context {blob : Type} {pickle : Pickle blob}.

Implicit Types (dc : DiskCacheIndexer (blob := blob))
  (RAG : RAGModel (blob := blob)).

(** Only the names ending in [.pdf] count: the loop over a listing is the
    loop over its PDF names, with the same result and the same cache. *)
Theorem index_files_only_pdf RAG folder_path (listing : list string) dc :
  index_files RAG folder_path listing dc =
  index_files RAG folder_path
    (List.filter (fun file => PyStr.endswith file ".pdf") listing) dc.
Proof.
  revert dc. induction listing as [|file listing IH]; intros dc; simpl;
    [reflexivity|].
  destruct (PyStr.endswith file ".pdf") eqn:Hpdf; [|apply IH].
  simpl. rewrite Hpdf.
  destruct (index_document RAG _) as [[images embeddings]|e];
    [apply IH | reflexivity].
Qed.

Lemma index_files_spec RAG folder_path (listing : list string) dc
    (docs : string -> list pyval * list pyval) :
  NoDup listing ->
  (forall file, In file listing -> PyStr.endswith file ".pdf" = true ->
     index_document RAG (PyStr.path_join folder_path file) = Ok (docs file)) ->
  let run := index_files RAG folder_path listing dc in
  fst run = Ok tt /\
  (forall k, ~ listed_key listing k -> cache (snd run) !! k = cache dc !! k) /\
  (forall file i image embedding,
     In file listing -> PyStr.endswith file ".pdf" = true ->
     combine (fst (docs file)) (snd (docs file)) !! i = Some (image, embedding) ->
     cache (snd run) !! (page_key file i ++ "_image") =
       Some (pickle_dumps image) /\
     cache (snd run) !! (page_key file i ++ "_embedding") =
       Some (pickle_dumps embedding)).
Proof.
  intros Hnd. revert dc.
  induction Hnd as [|f rest Hf Hnd IH]; intros dc Hdocs; cbv zeta.
  - simpl. split; [reflexivity|]. split; [reflexivity|]. intros ? ? ? ? [].
  - assert (forall file, In file rest -> PyStr.endswith file ".pdf" = true ->
              index_document RAG (PyStr.path_join folder_path file) =
                Ok (docs file)) as Hrest
      by (intros file Hin; apply Hdocs; now right).
    assert (forall k, ~ listed_key (f :: rest) k -> ~ listed_key rest k) as Hmono.
    { intros k Hk (file & j & Hin & Hpdf & Hkey). apply Hk.
      exists file, j. split; [now right | auto]. }
    simpl. destruct (PyStr.endswith f ".pdf") eqn:Hpdf.
    + rewrite (Hdocs f (or_introl eq_refl) Hpdf).
      destruct (docs f) as [images embeddings] eqn:Hd.
      set (dc1 := store_pages dc f 0 (combine images embeddings)).
      destruct (IH dc1 Hrest) as (Hok & Hframe & Hpages).
      split; [exact Hok|]. split.
      * intros k Hk. rewrite (Hframe k (Hmono k Hk)).
        apply store_pages_other. intros j _.
        split; intros ->; apply Hk; exists f, j;
          (split; [now left | auto]).
      * intros file i image embedding [<- | Hin] Hpdf' Hi.
        -- rewrite Hd in Hi. cbn [fst snd] in Hi.
           destruct (store_pages_lookup_from _ dc f 0 i _ _ Hi) as [Him Hem].
           change (0 + i)%nat with i in Him, Hem. fold dc1 in Him, Hem.
           rewrite !Hframe; [auto| |];
             intros (file & j & Hin & _ & [Hk | Hk]);
             first
               [ now apply image_key_not_embedding_key in Hk
               | symmetry in Hk; now apply image_key_not_embedding_key in Hk
               | apply app_inv_tail_string, page_key_inj in Hk as [-> _];
                 apply Hf, list_elem_of_In, Hin ].
        -- now apply Hpages.
    + destruct (IH dc Hrest) as (Hok & Hframe & Hpages).
      split; [exact Hok|]. split.
      * intros k Hk. apply Hframe, Hmono, Hk.
      * intros file i image embedding [<- | Hin] Hpdf' Hi; [congruence|].
        now apply Hpages.
Qed.

(** When the encoder gives pages for every listed PDF, the loop over the
    folder ends without exception, and afterwards every page of every
    listed PDF is read back under its key: [get_image] returns its image
    and [get_embedding] its embedding. *)
Theorem index_files_stores_all RAG folder_path (listing : list string) dc
    (docs : string -> list pyval * list pyval) :
  NoDup listing ->
  (forall file, In file listing -> PyStr.endswith file ".pdf" = true ->
     index_document RAG (PyStr.path_join folder_path file) = Ok (docs file)) ->
  fst (index_files RAG folder_path listing dc) = Ok tt /\
  (forall file i image embedding,
     In file listing -> PyStr.endswith file ".pdf" = true ->
     combine (fst (docs file)) (snd (docs file)) !! i = Some (image, embedding) ->
     get_image (snd (index_files RAG folder_path listing dc)) (page_key file i) =
       Ok image /\
     get_embedding (snd (index_files RAG folder_path listing dc))
                   (page_key file i) = Ok embedding).
Proof.
  intros Hnd Hdocs.
  destruct (index_files_spec RAG folder_path listing dc docs Hnd Hdocs)
    as (Hok & _ & Hpages).
  split; [exact Hok|].
  intros file i image embedding Hin Hpdf Hi.
  destruct (Hpages file i image embedding Hin Hpdf Hi) as [Him Hem].
  unfold get_image, get_embedding, cache_get. rewrite Him, Hem.
  cbn [loads_opt]. now rewrite !pickle_loads_dumps.
Qed.

(** The loop leaves every key alone that is not a key of a page of a
    listed PDF: what the cache held under other keys, it still holds. *)
Theorem index_files_frame RAG folder_path (listing : list string) dc (k : string) :
  ~ listed_key listing k ->
  cache (snd (index_files RAG folder_path listing dc)) !! k = cache dc !! k.
Proof.
  revert dc. induction listing as [|f rest IH]; intros dc Hk; [reflexivity|].
  assert (~ listed_key rest k) as Hrest.
  { intros (file & j & Hin & Hpdf & Hkey). apply Hk.
    exists file, j. split; [now right | auto]. }
  simpl. destruct (PyStr.endswith f ".pdf") eqn:Hpdf; [|now apply IH].
  destruct (index_document RAG _) as [[images embeddings]|e]; [|reflexivity].
  rewrite (IH _ Hrest). apply store_pages_other. intros j _.
  split; intros ->; apply Hk; exists f, j; (split; [now left | auto]).
Qed.

End FolderLoop.

(** ** Searching what was indexed *)

Section IndexThenSearch.

Context {blob : Type} {pickle : Pickle blob}.

Implicit Types (dc : DiskCacheIndexer (blob := blob))
  (RAG : RAGModel (blob := blob)) (pages : list (pyval * pyval)).

Lemma substring_all (t : string) : String.substring 0 (String.length t) t = t.
Proof. induction t as [|c t IH]; [reflexivity|]. cbn. now rewrite IH. Qed.

Lemma last_char_cons (c : ascii) (t : string) :
  t <> EmptyString -> last_char (String c t) = last_char t.
Proof. destruct t; [congruence | reflexivity]. Qed.

Lemma last_char_substring (t : string) (k m : nat) :
  (k + m = String.length t)%nat -> m <> 0%nat ->
  last_char (String.substring k m t) = last_char t.
Proof.
  revert k. induction t as [|c t IH]; intros k Hlen Hm.
  - cbn in Hlen. lia.
  - cbn [String.length] in Hlen. destruct k as [|k].
    + cbn in Hlen. subst m.
      change (S (String.length t)) with (String.length (String c t)).
      now rewrite (substring_all (String c t)).
    + change (String.substring (S k) m (String c t))
        with (String.substring k m t).
      rewrite IH by lia. symmetry. apply last_char_cons.
      intros ->. cbn in Hlen. lia.
Qed.

Lemma endswith_last_char (t suffix : string) :
  suffix <> EmptyString ->
  PyStr.endswith t suffix = true -> last_char t = last_char suffix.
Proof.
  intros Hne. unfold PyStr.endswith.
  destruct (Nat.leb_spec (String.length suffix) (String.length t)) as [Hle|];
    [|discriminate].
  intros H. apply String.eqb_eq in H. rewrite <- H.
  symmetry. apply last_char_substring; [lia|].
  destruct suffix; [congruence | discriminate].
Qed.

Lemma image_key_not_scanned (a : string) :
  is_embedding_key (a ++ "_image") = false.
Proof.
  unfold is_embedding_key.
  destruct (PyStr.endswith (a ++ "_image") "_embedding") eqn:E; [|reflexivity].
  apply endswith_last_char in E; [|discriminate].
  rewrite last_char_image in E. discriminate.
Qed.

(** A key of the cache after the loop over a document was there before,
    or is a key of one of the pages. *)
Lemma store_pages_dom pages dc file n (k : string) :
  is_Some (cache (store_pages dc file n pages) !! k) ->
  is_Some (cache dc !! k) \/
  exists j image embedding,
    pages !! j = Some (image, embedding) /\
    (k = page_key file (n + j) ++ "_image" \/
     k = page_key file (n + j) ++ "_embedding").
Proof.
  revert dc n. induction pages as [|[image embedding] pages IH]; intros dc n H;
    [now left|].
  rewrite cache_store_pages_cons in H.
  destruct (IH _ _ H) as [H0 | (j & i & e & Hj & Hk)].
  - unfold store_embedding, store_image, cache_set in H0. cbn [cache] in H0.
    destruct (decide (k = page_key file n ++ "_embedding")) as [->|Hne1].
    { right. exists 0%nat, image, embedding. rewrite Nat.add_0_r. auto. }
    rewrite lookup_insert_ne in H0 by congruence.
    destruct (decide (k = page_key file n ++ "_image")) as [->|Hne2].
    { right. exists 0%nat, image, embedding. rewrite Nat.add_0_r. auto. }
    rewrite lookup_insert_ne in H0 by congruence. now left.
  - right. exists (S j), i, e. split; [exact Hj|].
    now replace (n + S j)%nat with (S n + j)%nat by lia.
Qed.

Lemma compute_similarity_ok (q d : embedding) :
  length q = length d -> exists sim, compute_similarity q d = Ok sim.
Proof.
  intros H. unfold compute_similarity, np_dot.
  rewrite H, Nat.eqb_refl. cbn. eauto.
Qed.

Lemma indexed_entry file pages qe (k : string) :
  PyStr.contains "_embedding" file = false ->
  pages_fit qe pages ->
  In k (embedding_keys (cache (store_pages {| cache := ∅ |} file 0 pages))) ->
  exists r,
    scan_entry (cache (store_pages {| cache := ∅ |} file 0 pages)) qe k = Ok r /\
    own_page file qe pages r.
Proof.
  intros Hfile Hfit Hk. unfold embedding_keys in Hk.
  apply filter_In in Hk as [Hdom Hemb].
  apply list_elem_of_In, elem_of_iterkeys, store_pages_dom in Hdom
    as [H0 | (j & image & v & Hj & Hkey)].
  - cbn [cache] in H0. rewrite lookup_empty in H0. now destruct H0.
  - change (0 + j)%nat with j in Hkey. destruct Hkey as [-> | ->].
    + now rewrite image_key_not_scanned in Hemb.
    + destruct (Hfit j image v Hj) as (e & -> & Hlen).
      destruct (compute_similarity_ok qe e Hlen) as [sim Hsim].
      eexists. split.
      * apply (scan_entry_page pages _ file j image e qe sim); eauto.
      * exists j, e. cbn. auto.
Qed.

(** Index one document into an empty cache, then search it.  When the
    name of the document does not contain [_embedding] and the embeddings
    are arrays of the query's length, every entry of the cache is valid,
    the search returns, and every result is a page of the document with
    the image of that very page. *)
Theorem search_after_indexing RAG query k qe file pages :
  PyStr.contains "_embedding" file = false ->
  pages_fit qe pages ->
  encode_query RAG query = Ok qe ->
  disk_cache RAG = Some (store_pages {| cache := ∅ |} file 0 pages) ->
  all_valid (cache (store_pages {| cache := ∅ |} file 0 pages)) qe /\
  exists rs,
    retrieve_from_disk RAG query k = Ok rs /\
    Forall (own_page file qe pages) rs.
Proof.
  intros Hfile Hfit Hq Hdc.
  set (dc := store_pages {| cache := ∅ |} file 0 pages) in *.
  assert (Forall (fun k => valid_entry (cache dc) qe k = true)
                 (embedding_keys (cache dc))) as Hall.
  { apply Forall_forall. intros k' Hk'. apply list_elem_of_In in Hk'.
    destruct (indexed_entry file pages qe k' Hfile Hfit Hk') as (r & Hr & _).
    unfold valid_entry. fold dc in Hr. now rewrite Hr. }
  split.
  - unfold all_valid. apply forallb_forall. intros k' Hk'.
    eapply Forall_forall in Hall; [exact Hall|]. now apply list_elem_of_In.
  - destruct (scan_ok (cache dc) qe (iterkeys (cache dc)) Hall) as [all Hscan].
    exists (slice_to (sort_desc all) k). split.
    + rewrite (retrieve_from_disk_unfold _ _ _ _ _ Hq Hdc), Hscan. reflexivity.
    + apply Forall_forall. intros r Hr.
      assert (r ∈ all) as Hin.
      { rewrite <- (sort_desc_Permutation all).
        eapply sublist_subseteq; [apply slice_to_sublist | exact Hr]. }
      pose proof (scan_Forall _ _ _ _ Hscan) as Hone.
      eapply Forall_forall in Hone; [|exact Hin].
      assert (In (key r) (embedding_keys (cache dc))) as Hkey.
      { unfold embedding_keys. rewrite <- (scan_keys _ _ _ _ Hscan).
        apply in_map, list_elem_of_In, Hin. }
      destruct (indexed_entry file pages qe (key r) Hfile Hfit Hkey)
        as (r' & Hr' & Hown).
      fold dc in Hr'. congruence.
Qed.

End IndexThenSearch.

(** ** The answer generator *)

Section Responder.

Variable gen : Generation.

Implicit Types (w : world) (images : list string).

Lemma filter_nil_bool {A} (f : A -> bool) (l : list A) :
  (forall x, In x l -> f x = false) -> List.filter f l = [].
Proof.
  induction l as [|x l IH]; intros H; simpl; [reflexivity|].
  rewrite (H x (or_introl eq_refl)). apply IH. intros y Hy. apply H. now right.
Qed.

Lemma valid_images_nil images w :
  (forall img, In img images -> full_image_path img ∉ files w) ->
  valid_images images w = [].
Proof.
  intros H. unfold valid_images. apply filter_nil_bool.
  intros p Hp. apply in_map_iff in Hp as (img & <- & Himg).
  apply bool_decide_eq_false. now apply H.
Qed.

Lemma valid_images_cons images w img :
  In img images -> full_image_path img ∈ files w ->
  exists p rest, valid_images images w = p :: rest.
Proof.
  intros Hin Hex.
  assert (In (full_image_path img) (valid_images images w)) as H.
  { unfold valid_images. apply filter_In. split.
    - now apply in_map.
    - now apply bool_decide_eq_true. }
  destruct (valid_images images w) as [|p rest]; [destruct H | eauto].
Qed.

(** Without an image that exists (also with no image at all)
    [generate_response] answers that no image could be loaded, before it
    looks at the model choice: no model runs, and an unknown model choice
    is not reported. *)
Theorem generate_response_no_images images query session_id
    resized_height resized_width model_choice answer_length w :
  (forall img, In img images -> full_image_path img ∉ files w) ->
  generate_response gen images query session_id resized_height resized_width
    model_choice answer_length w =
    (Ok "No images could be loaded for analysis.",
     World (files w) (trace w ++ [EvLogWarning "generate_response"])).
Proof.
  intros H. unfold generate_response, try_except, generate_response_body.
  now rewrite (valid_images_nil images w H).
Qed.

(** With the model choice [gpt4] and an image that exists, the request is
    never sent: the answer is the error sentence for the [NameError] of
    the unbound name [openai], whatever the images, the query and the
    answer length. *)
Theorem generate_response_gpt4 images query session_id
    resized_height resized_width answer_length w img :
  In img images -> full_image_path img ∈ files w ->
  generate_response gen images query session_id resized_height resized_width
    "gpt4" answer_length w =
    (Ok ("An error occurred while generating the response: "
         ++ exn_str gen (OtherError "NameError")),
     logged "generate_response" (OtherError "NameError") w).
Proof.
  intros Hin Hex. unfold generate_response, try_except, generate_response_body.
  destruct (valid_images_cons images w img Hin Hex) as (p & rest & ->).
  reflexivity.
Qed.

(** With the model choice [qwen] and an image that exists, the model gets
    the existing images in the order given, and sizes rounded down to
    multiples of 28: at most the size asked for and less than 28 below it.
    It may produce 500 tokens for the answer length [long] and 128
    otherwise.  What the model returns is the answer; what it raises
    becomes the error sentence. *)
Theorem generate_response_qwen images query session_id
    resized_height resized_width answer_length w img :
  In img images -> full_image_path img ∈ files w ->
  exists height width tokens : Z,
    generate_response gen images query session_id resized_height
      resized_width "qwen" answer_length w =
      match qwen gen (valid_images images w) height width query tokens with
      | Ok text => (Ok text, w)
      | Raise e =>
          (Ok ("An error occurred while generating the response: "
               ++ exn_str gen e),
           logged "generate_response" e w)
      end /\
    (28 | height) /\ resized_height - 28 < height <= resized_height /\
    (28 | width) /\ resized_width - 28 < width <= resized_width /\
    tokens = (if String.eqb answer_length "long" then 500 else 128).
Proof.
  intros Hin Hex.
  exists ((resized_height / 28) * 28), ((resized_width / 28) * 28),
    (if String.eqb answer_length "long" then 500 else 128).
  split.
  - unfold generate_response, try_except, generate_response_body.
    destruct (valid_images_cons images w img Hin Hex) as (p & rest & Hv).
    rewrite Hv. cbn [String.eqb Ascii.eqb Bool.eqb]. cbv iota.
    unfold lift, qwen_branch.
    assert ((if String.eqb answer_length "short" then 128
             else if String.eqb answer_length "long" then 500 else 128) =
            (if String.eqb answer_length "long" then 500 else 128)) as ->.
    { destruct (String.eqb_spec answer_length "short") as [->|]; [reflexivity|].
      now destruct (String.eqb answer_length "long"). }
    destruct (qwen gen _ _ _ _ _); reflexivity.
  - pose proof (Z.div_mod resized_height 28 ltac:(lia)) as Hh.
    pose proof (Z.mod_pos_bound resized_height 28 ltac:(lia)) as Hhb.
    pose proof (Z.div_mod resized_width 28 ltac:(lia)) as Hw.
    pose proof (Z.mod_pos_bound resized_width 28 ltac:(lia)) as Hwb.
    repeat split; try lia.
    + exists (resized_height / 28). lia.
    + exists (resized_width / 28). lia.
Qed.

End Responder.

(** ** From the materializer to the answer generator *)

Section MaterializedThenAnswered.

Context {blob : Type} {pickle : Pickle blob} (imaging : Imaging).

Implicit Types (RAG : RAGModel (blob := blob)) (w : world).

Lemma relative_path_not_static (session_id : string) (b : bytes) :
  String.prefix "static" (relative_path imaging session_id b) = false.
Proof.
  unfold relative_path, image_filename.
  set (fn := "retrieved_" ++ md5_hexdigest imaging b ++ ".png").
  assert (String.prefix "/" fn = false) as Hfn by reflexivity.
  destruct (String.prefix "/" session_id) eqn:Hs.
  - rewrite (path_join_abs _ session_id Hs).
    destruct session_id as [|c sid]; [discriminate|].
    rewrite (path_join_rel c sid fn Hfn).
    cbv [String.prefix] in Hs. destruct (ascii_dec "/" c) as [<-|]; [|discriminate].
    now destruct (PyStr.endswith (String "/" sid) "/").
  - rewrite (path_join_rel _ _ session_id Hs).
    change (PyStr.endswith "images" "/") with false. cbv iota.
    change ("images" ++ "/" ++ session_id)
      with (String "i" ("mages/" ++ session_id)).
    rewrite (path_join_rel _ _ fn Hfn).
    now destruct (PyStr.endswith _ "/").
Qed.

Lemma process_loop_paths_shape RAG session_id results images w paths w' :
  (forall p, In p images -> exists b, p = relative_path imaging session_id b) ->
  process_loop imaging RAG session_id results images w = (Ok paths, w') ->
  forall p, In p paths -> exists b, p = relative_path imaging session_id b.
Proof.
  revert images w. induction results as [|r results IH]; intros images w Himg;
    simpl.
  - now intros [= <- <-].
  - unfold mbind, M_bind. rewrite process_result_spec.
    destruct (usable imaging RAG r) as [[b|]|e]; [| |discriminate].
    + destruct (bool_decide _); apply IH; intros p Hp;
        apply in_app_or in Hp as [Hp | [<- | []]]; eauto.
    + apply IH. exact Himg.
Qed.

(** What the materializer returns, the answer generator accepts: run in
    the world that [process_results] leaves, [generate_response] finds
    every returned path, joined under [static], to exist, so that every
    retrieved page is among its valid images, in the same order. *)
Theorem materialized_paths_valid results RAG session_id w paths w' :
  process_results imaging results RAG session_id w = (Ok paths, w') ->
  valid_images paths w' = map (PyStr.path_join "static") paths.
Proof.
  intros H.
  assert (forall p, In p paths -> PyStr.path_join "static" p ∈ files w') as Hex
    by (eapply process_loop_paths_exist; [|exact H]; intros p []).
  assert (forall p, In p paths ->
            exists b, p = relative_path imaging session_id b) as Hshape
    by (eapply process_loop_paths_shape; [|exact H]; intros p []).
  unfold valid_images. clear H.
  induction paths as [|p paths IH]; [reflexivity|].
  assert (full_image_path p = PyStr.path_join "static" p) as Hp.
  { destruct (Hshape p (or_introl eq_refl)) as [b ->].
    unfold full_image_path. now rewrite relative_path_not_static. }
  cbn [map List.filter]. rewrite Hp.
  rewrite (bool_decide_eq_true_2 _ (Hex p (or_introl eq_refl))).
  f_equal. apply IH; intros q Hq; [apply Hex | apply Hshape]; now right.
Qed.

End MaterializedThenAnswered.

(** ** Section references *)

Section SectionTexts.

Lemma dict_get_set (d : PyDict) (k v k' : string) :
  dict_get (dict_set d k v) k' =
  if String.eqb k k' then Some v else dict_get d k'.
Proof.
  induction d as [|[k0 v0] d IH]; simpl.
  - reflexivity.
  - destruct (String.eqb_spec k0 k) as [->|Hne]; simpl.
    + now destruct (String.eqb k k').
    + destruct (String.eqb_spec k0 k') as [->|Hne'].
      * destruct (String.eqb_spec k k'); [congruence | reflexivity].
      * exact IH.
Qed.

Lemma dict_set_keys (d : PyDict) (k v : string) :
  NoDup (map fst d) -> NoDup (map fst (dict_set d k v)) /\
  forall k', In k' (map fst (dict_set d k v)) <-> k' = k \/ In k' (map fst d).
Proof.
  induction d as [|[k0 v0] d IH]; simpl; intros Hnd.
  - split; [apply NoDup_singleton | intros k'; intuition].
  - apply NoDup_cons in Hnd as [H0 Hnd]. destruct (IH Hnd) as [IHnd IHin].
    destruct (String.eqb_spec k0 k) as [->|Hne]; simpl.
    + split; [now apply NoDup_cons | intros k'; intuition].
    + split.
      * apply NoDup_cons. split; [|exact IHnd].
        intros Hin. apply list_elem_of_In, IHin in Hin as [->|Hin]; [congruence|].
        apply H0, list_elem_of_In, Hin.
      * intros k'. rewrite IHin. intuition.
Qed.

Lemma fold_section_texts (d : PyDict) (refs : list string) (acc : PyDict) :
  NoDup (map fst acc) ->
  (forall s t, dict_get acc s = Some t -> dict_get d s = Some t /\ t <> "") ->
  let out := fold_left (add_section_text d) refs acc in
  NoDup (map fst out) /\
  forall sec text,
    dict_get out sec = Some text <->
    dict_get acc sec = Some text \/
    (In sec refs /\ dict_get d sec = Some text /\ text <> "").
Proof.
  revert acc. induction refs as [|r refs IH]; intros acc Hnd Hinv; cbv zeta.
  - simpl. split; [exact Hnd | intros; tauto].
  - cbn [fold_left].
    assert (NoDup (map fst (add_section_text d acc r)) /\
            (forall s t, dict_get (add_section_text d acc r) s = Some t <->
                         dict_get acc s = Some t \/
                         (s = r /\ dict_get d s = Some t /\ t <> ""))) as [Hnd' Hstep].
    { unfold add_section_text. destruct (dict_get d r) as [text|] eqn:Hr.
      - destruct (String.eqb_spec text "") as [->|Hne].
        + split; [exact Hnd|]. intros s t. split; [tauto|].
          intros [H | (-> & H & Ht)]; [exact H | congruence].
        + split; [now apply dict_set_keys|]. intros s t.
          rewrite dict_get_set. destruct (String.eqb_spec r s) as [<-|Hrs].
          * split.
            -- intros [= <-]. right. auto.
            -- intros [H | (_ & H & _)]; [|congruence].
               apply Hinv in H as [H _]. congruence.
          * split; [tauto|]. intros [H | (-> & _)]; [exact H | congruence].
      - split; [exact Hnd|]. intros s t. split; [tauto|].
        intros [H | (-> & H & _)]; [exact H | congruence]. }
    assert (forall s t, dict_get (add_section_text d acc r) s = Some t ->
                        dict_get d s = Some t /\ t <> "") as Hinv'.
    { intros s t H. apply Hstep in H as [H | (_ & H & Ht)]; auto. }
    destruct (IH _ Hnd' Hinv') as [Hout Hlook]. split; [exact Hout|].
    intros sec text. rewrite Hlook, Hstep. simpl. intuition (subst; auto).
Qed.

(** [get_section_texts] keeps, of the referenced sections, those that the
    dictionary knows with a text that is not empty, each under its own
    number and once: a section is in the result with a text exactly when
    it is referenced and the dictionary gives that text, not empty. *)
Theorem get_section_texts_lookup (refs : list string) (d : PyDict)
    (sec text : string) :
  NoDup (map fst (get_section_texts refs d)) /\
  (dict_get (get_section_texts refs d) sec = Some text <->
   In sec refs /\ dict_get d sec = Some text /\ text <> "").
Proof.
  destruct (fold_section_texts d refs []) as [Hnd Hlook];
    [constructor | discriminate |].
  split; [exact Hnd|]. unfold get_section_texts.
  rewrite Hlook. simpl. intuition discriminate.
Qed.

End SectionTexts.

(** ** A query answered from the disk cache *)

Section DiskQuery.

Context {blob : Type} {pickle : Pickle blob} (imaging : Imaging).

Implicit Types (RAG : RAGModel (blob := blob)) (w : world).



End DiskQuery.

(** ** Independence of the cache entries *)

Section CacheFrame.

Context {blob : Type} {pickle : Pickle blob}.

Implicit Types (self : DiskCacheIndexer (blob := blob)).

(** Storing an image touches the image of its own key only: the embedding
    of every key, that of the same key too, and the image of every
    other key are read back as before.  Likewise for storing an
    embedding. *)
Theorem store_leaves_others self (k k' : string) (value : pyval) :
  get_embedding (store_image self k value) k' = get_embedding self k' /\
  get_image (store_embedding self k value) k' = get_image self k' /\
  (k <> k' ->
   get_image (store_image self k value) k' = get_image self k' /\
   get_embedding (store_embedding self k value) k' = get_embedding self k').
Proof.
  unfold get_image, get_embedding, store_image, store_embedding,
    cache_get, cache_set. cbn [cache].
  split; [|split].
  - now rewrite lookup_insert_ne by apply image_key_not_embedding_key.
  - now rewrite lookup_insert_ne
      by apply not_eq_sym, image_key_not_embedding_key.
  - intros Hne. split; rewrite lookup_insert_ne; try reflexivity;
      intros H; apply app_inv_tail_string in H; congruence.
Qed.

End CacheFrame.

(** ** All entries when [k] is large *)

Section SearchAll.

Context {blob : Type} {pickle : Pickle blob}.

Implicit Types (RAG : RAGModel (blob := blob)).

Lemma slice_to_all {A} (l : list A) (k : Z) :
  Z.of_nat (length l) <= k -> slice_to l k = l.
Proof.
  intros H. unfold slice_to. destruct (Z.ltb_spec k 0); [lia|].
  apply take_ge. lia.
Qed.

(** With [k] at least the number of cached embeddings, nothing is cut
    off: every entry of the cache that is valid for the query is among
    the results. *)
Theorem retrieve_from_disk_all RAG query k qe dc rs k' r' :
  encode_query RAG query = Ok qe ->
  disk_cache RAG = Some dc ->
  retrieve_from_disk RAG query k = Ok rs ->
  Z.of_nat (length (embedding_keys (cache dc))) <= k ->
  In k' (embedding_keys (cache dc)) ->
  scan_entry (cache dc) qe k' = Ok r' ->
  In r' rs /\ length rs = length (embedding_keys (cache dc)).
Proof.
  intros Hq Hdc Hr Hk Hk' Hr'.
  destruct (retrieve_from_disk_scan _ _ _ _ _ _ Hq Hdc Hr) as (all & Hscan & ->).
  assert (length all = length (embedding_keys (cache dc))) as Hlen.
  { unfold embedding_keys. rewrite <- (scan_keys _ _ _ _ Hscan).
    now rewrite length_map. }
  rewrite slice_to_all by (rewrite sort_desc_length; lia).
  split; [|now rewrite sort_desc_length].
  apply list_elem_of_In. rewrite (sort_desc_Permutation all).
  apply list_elem_of_In. eapply scan_complete; eauto.
Qed.

End SearchAll.

(** ** What a query does to the files *)

Section QueryEffects.

Context {blob : Type} {pickle : Pickle blob} (imaging : Imaging).

Implicit Types (RAG : RAGModel (blob := blob)) (w : world).

Lemma only_adds_event w (ev : event) :
  saved_paths [ev] = [] ->
  only_adds w (World (files w) (trace w ++ [ev])).
Proof.
  intros H. exists [ev]. rewrite H. simpl.
  repeat split; [set_solver | constructor | set_solver].
Qed.

Lemma native_search_only_adds RAG query k w :
  only_adds w (snd (native_search RAG query k w)).
Proof. rewrite native_search_spec. now apply only_adds_event. Qed.

Lemma fallback_only_adds RAG query session_id k w :
  only_adds w (snd (fallback imaging RAG query session_id k w)).
Proof.
  unfold fallback, mbind, M_bind.
  pose proof (native_search_only_adds RAG query k w) as H1.
  destruct (native_search RAG query k w) as [[hits|e] w1]; cbn [snd] in *;
    [|exact H1].
  eapply only_adds_trans; [exact H1 | apply process_loop_only_adds].
Qed.

Lemma primary_path_only_adds RAG query session_id k w :
  only_adds w (snd (primary_path imaging RAG query session_id k w)).
Proof.
  unfold primary_path, primary_search, mbind at 1, M_bind at 1.
  destruct (disk_mode RAG).
  - unfold lift. destruct (_ ≫= _) as [hits|e]; cbn [snd].
    + apply process_loop_only_adds.
    + apply only_adds_refl.
  - pose proof (native_search_only_adds RAG query k w) as H1.
    destruct (native_search RAG query k w) as [[hits|e] w1]; cbn [snd] in *;
      [|exact H1].
    eapply only_adds_trans; [exact H1 | apply process_loop_only_adds].
Qed.

(** A query only adds to the files: whatever [retrieve_documents]
    returns or raises, every file that existed before still exists, the
    new files are the ones it saved, and it saves over no file. *)
Theorem retrieve_documents_only_adds RAG query session_id k w :
  let w' := snd (retrieve_documents imaging RAG query session_id k w) in
  files w ⊆ files w' /\
  exists t : list event,
    trace w' = (trace w ++ t)%list /\
    files w' = list_to_set (saved_paths t) ∪ files w /\
    NoDup (saved_paths t) /\
    (forall p, p ∈ saved_paths t -> p ∉ files w).
Proof.
  cbv zeta.
  assert (only_adds w (snd (retrieve_documents imaging RAG query session_id k w)))
    as H; [|split; [now apply only_adds_subseteq | exact H]].
  unfold retrieve_documents, try_except.
  pose proof (primary_path_only_adds RAG query session_id k w) as H1.
  destruct (primary_path imaging RAG query session_id k w) as [[images|e] w1];
    cbn [snd] in *; [exact H1|].
  eapply only_adds_trans; [exact H1|].
  destruct (is_AttributeError e).
  - eapply only_adds_trans;
      [apply (only_adds_event w1 (EvLogError "retrieve_documents" e)); reflexivity|].
    apply (fallback_only_adds RAG query session_id k).
  - apply (only_adds_event w1 (EvLogError "retrieve_documents" e)). reflexivity.
Qed.

End QueryEffects.

(** ** The further properties on concrete inputs *)

Import SampleMore.

Lemma retrieve_from_disk_sound_witness :
  NoDup (map key top2) /\
  Forall (fun r => In (key r) (embedding_keys (cache three_pages)) /\
                   from_cache (cache three_pages) q10 r) top2.
Proof.
  apply (retrieve_from_disk_sound
           (disk_model (cache three_pages) q10) "q" 2 q10 three_pages top2).
  - reflexivity.
  - reflexivity.
  - vm_compute. reflexivity.
Defined.

Lemma retrieve_from_disk_top_witness :
  In left_out top2 \/
  Forall (fun r => f64_le (similarity left_out) (similarity r)) top2.
Proof.
  apply (retrieve_from_disk_top
           (disk_model (cache three_pages) q10) "q" 2 q10 three_pages top2
           "a.pdf_1_embedding" left_out).
  - reflexivity.
  - reflexivity.
  - vm_compute. reflexivity.
  - vm_compute. reflexivity.
  - vm_compute. right. left. reflexivity.
  - vm_compute. reflexivity.
Defined.


Lemma process_results_paths_exist_witness :
  PyStr.path_join "static" "images/s/retrieved_8901.png" ∈
  files (snd (process_results imaging [hit_of Byte.x01]
                (disk_model (cache three_pages) q10) "s" w0)).
Proof.
  apply (process_results_paths_exist imaging [hit_of Byte.x01]
           (disk_model (cache three_pages) q10) "s" w0
           ["images/s/retrieved_8901.png"]).
  - vm_compute. reflexivity.
  - left. reflexivity.
Defined.


Lemma page_key_injective_witness : "a.pdf" = "a.pdf" /\ 3%nat = 3%nat.
Proof. apply (page_key_injective "a.pdf" "a.pdf" 3 3). reflexivity. Defined.

Lemma store_pages_lookup_witness :
  get_image (store_pages dc_empty "a.pdf" 0 three_page_list)
            (page_key "a.pdf" 1) = Ok (PyBytes (png Byte.x02)) /\
  get_embedding (store_pages dc_empty "a.pdf" 0 three_page_list)
                (page_key "a.pdf" 1) = Ok (PyArray (vec [0; 1])).
Proof.
  apply (store_pages_lookup three_page_list dc_empty "a.pdf" 1).
  reflexivity.
Defined.

Lemma scan_entry_stored_page_witness :
  scan_entry (cache (store_pages dc_empty "a.pdf" 0 three_page_list)) q10
             (page_key "a.pdf" 1 ++ "_embedding") =
    Ok {| similarity := S754_zero false; image := PyBytes (png Byte.x02);
          key := page_key "a.pdf" 1 ++ "_embedding" |}.
Proof.
  apply (scan_entry_stored_page three_page_list dc_empty "a.pdf" 1
           (PyBytes (png Byte.x02)) (vec [0; 1]) q10 (S754_zero false)).
  - reflexivity.
  - reflexivity.
  - vm_compute. reflexivity.
Defined.

Lemma index_files_stores_all_witness :
  fst (index_files picky_model "docs" ["good.pdf"; "notes.txt"] dc_empty) =
    Ok tt /\
  (forall file i image embedding,
     In file ["good.pdf"; "notes.txt"] -> PyStr.endswith file ".pdf" = true ->
     combine (fst (one_page_docs file)) (snd (one_page_docs file)) !! i =
       Some (image, embedding) ->
     get_image
       (snd (index_files picky_model "docs" ["good.pdf"; "notes.txt"] dc_empty))
       (page_key file i) = Ok image /\
     get_embedding
       (snd (index_files picky_model "docs" ["good.pdf"; "notes.txt"] dc_empty))
       (page_key file i) = Ok embedding).
Proof.
  apply (index_files_stores_all picky_model "docs" ["good.pdf"; "notes.txt"]
           dc_empty one_page_docs).
  - apply (bool_decide_unpack _). vm_compute. exact I.
  - intros file [<- | [<- | []]] H; [reflexivity | discriminate H].
Defined.

Lemma index_files_frame_witness :
  cache (snd (index_files picky_model "docs" ["good.pdf"] (three_pages)))
    !! "a.pdf_0_image" = cache three_pages !! "a.pdf_0_image".
Proof.
  apply (index_files_frame picky_model "docs" ["good.pdf"] three_pages
           "a.pdf_0_image").
  intros (file & j & [<- | []] & _ & [H | H]); discriminate H.
Defined.

Lemma search_after_indexing_witness :
  all_valid (cache (store_pages {| cache := ∅ |} "a.pdf" 0 three_page_list)) q10 /\
  exists rs,
    retrieve_from_disk (disk_model (cache three_pages) q10) "q" 2 = Ok rs /\
    Forall (own_page "a.pdf" q10 three_page_list) rs.
Proof.
  apply (search_after_indexing (disk_model (cache three_pages) q10) "q" 2 q10
           "a.pdf" three_page_list).
  - reflexivity.
  - intros [|[|[|i]]] image v; simpl; intros H; try discriminate H;
      injection H as <- <-; eexists; (split; [reflexivity|reflexivity]).
  - reflexivity.
  - reflexivity.
Defined.

Lemma generate_response_no_images_witness :
  generate_response generation ["images/s/missing.png"] "q" "s" 280 280
    "no such model" "short" w0 =
    (Ok "No images could be loaded for analysis.",
     World (files w0) (trace w0 ++ [EvLogWarning "generate_response"])).
Proof.
  apply (generate_response_no_images generation ["images/s/missing.png"]
           "q" "s" 280 280 "no such model" "short" w0).
  intros img [<- | []]. vm_compute. set_solver.
Defined.

Lemma generate_response_gpt4_witness :
  generate_response generation ["images/s/retrieved_8901.png"] "q" "s" 280 280
    "gpt4" "short" w_one_image =
    (Ok ("An error occurred while generating the response: "
         ++ exn_str generation (OtherError "NameError")),
     logged "generate_response" (OtherError "NameError") w_one_image).
Proof.
  apply (generate_response_gpt4 generation ["images/s/retrieved_8901.png"]
           "q" "s" 280 280 "short" w_one_image "images/s/retrieved_8901.png").
  - left. reflexivity.
  - vm_compute. set_solver.
Defined.

Lemma generate_response_qwen_witness :
  exists height width tokens : Z,
    generate_response generation ["images/s/retrieved_8901.png"] "q" "s"
      290 27 "qwen" "long" w_one_image =
      match qwen generation
              (valid_images ["images/s/retrieved_8901.png"] w_one_image)
              height width "q" tokens with
      | Ok text => (Ok text, w_one_image)
      | Raise e =>
          (Ok ("An error occurred while generating the response: "
               ++ exn_str generation e),
           logged "generate_response" e w_one_image)
      end /\
    (28 | height) /\ 290 - 28 < height <= 290 /\
    (28 | width) /\ 27 - 28 < width <= 27 /\
    tokens = (if String.eqb "long" "long" then 500 else 128).
Proof.
  apply (generate_response_qwen generation ["images/s/retrieved_8901.png"]
           "q" "s" 290 27 "long" w_one_image "images/s/retrieved_8901.png").
  - left. reflexivity.
  - vm_compute. set_solver.
Defined.

Lemma materialized_paths_valid_witness :
  valid_images ["images/s/retrieved_8901.png"]
    (snd (process_results imaging [hit_of Byte.x01]
            (disk_model (cache three_pages) q10) "s" w0)) =
  map (PyStr.path_join "static") ["images/s/retrieved_8901.png"].
Proof.
  apply (materialized_paths_valid imaging [hit_of Byte.x01]
           (disk_model (cache three_pages) q10) "s" w0).
  vm_compute. reflexivity.
Defined.


Lemma store_leaves_others_witness :
  get_image (store_image three_pages "b.pdf_0" (PyBytes (png Byte.x07)))
            "a.pdf_1" = get_image three_pages "a.pdf_1" /\
  get_embedding (store_embedding three_pages "b.pdf_0" (PyArray q10))
                "a.pdf_1" = get_embedding three_pages "a.pdf_1".
Proof.
  apply (store_leaves_others three_pages "b.pdf_0" "a.pdf_1"
           (PyBytes (png Byte.x07))).
  discriminate.
Defined.

Lemma retrieve_from_disk_all_witness :
  In left_out
     (match retrieve_from_disk (disk_model (cache three_pages) q10) "q" 5 with
      | Ok rs => rs
      | Raise _ => []
      end) /\
  length (match retrieve_from_disk (disk_model (cache three_pages) q10) "q" 5 with
          | Ok rs => rs
          | Raise _ => []
          end) = length (embedding_keys (cache three_pages)).
Proof.
  apply (retrieve_from_disk_all
           (disk_model (cache three_pages) q10) "q" 5 q10 three_pages _
           "a.pdf_1_embedding" left_out).
  - reflexivity.
  - reflexivity.
  - vm_compute. reflexivity.
  - vm_compute. discriminate.
  - vm_compute. auto.
  - vm_compute. reflexivity.
Defined.
